(** * Design-system manager: authorization and lifecycle of components

    A shallow embedding of [routes/components.js] (the POST, PUT and DELETE
    handlers of the component router), of the schema declared in
    [models/Component.js], and of the two middlewares the router imports
    from [middleware/auth.js].

    - Request bodies are JSON objects: finite maps from field names to JSON
      values ([gmap string json]).
    - The component collection is a finite map from [_id] to documents.
    - A handler is a function from the request data and the collection to
      the HTTP response and the collection afterwards.
    - An exception thrown inside a handler's [try] block is a [Throw]; the
      [catch] block turns it into a 500 response. *)

From Stdlib Require Import ZArith String Ascii List Bool.
From stdpp Require Import base option gmap strings list fin_maps.

Local Open Scope string_scope.
Set Warnings "-register-all".

(** ** JSON values and the JavaScript operators the handlers use on them *)

(** Numbers are restricted to integers: the handlers only test a number for
    being zero (falsy) or not. *)
Inductive json : Type :=
| JNull
| JBool (b : bool)
| JNum (n : Z)
| JStr (s : string)
| JArr (items : list json)
| JObj (fields : list (string * json)).

(** The value of a property read [obj.key] is [obj !! key]; [None] is
    JavaScript's [undefined]. *)
Definition truthy (v : option json) : bool :=
  match v with
  | None => false
  | Some JNull => false
  | Some (JBool b) => b
  | Some (JNum n) => negb (n =? 0)%Z
  | Some (JStr s) => negb (String.eqb s "")
  | Some (JArr _) => true
  | Some (JObj _) => true
  end.

(** [v || d] *)
Definition or_else (v : option json) (d : json) : json :=
  match v with
  | Some x => if truthy v then x else d
  | None => d
  end.

(** [v === 'lit'] for a string literal. *)
Definition is_string (v : option json) (lit : string) : bool :=
  match v with
  | Some (JStr s) => String.eqb s lit
  | _ => false
  end.

(** ** Identities, documents and responses *)

(** [req.user]: the payload of the verified token,
    [{ id, username, role }]. The role is the string carried by the token;
    the handlers compare it with [===]. *)
Record Identity : Type := {
  user_id : string;
  username : string;
  role : string
}.

(** A document of the [Component] model, one field per schema path.
    [props], [code], [designTokens] and [tags] are payload the handlers
    never inspect. Dates are milliseconds since the epoch. *)
Record Component : Type := {
  _id : string;
  name : string;
  description : string;
  category : string;
  props : json;
  code : json;
  designTokens : json;
  tags : json;
  status : string;
  createdBy : string;
  updatedAt : Z;
  createdAt : Z
}.

(** What [await component.save()] and the casts before it may throw. *)
Inductive mongoose_error : Type :=
| CastError (path : string)
| ValidationError (path : string)
| ImmutableField (path : string)
| DuplicateKey.

(** Response bodies: [{ error: '...' }], [{ error: error.message }] of a
    caught exception, [{ message: '...' }], and a document. *)
Inductive payload : Type :=
| ErrorBody (error : string)
| CaughtBody (e : mongoose_error)
| MessageBody (message : string)
| ComponentBody (c : Component).

(** [res.status(n).json(body)]; [res.json(body)] has status 200. *)
Record response : Type := Json {
  http_status : nat;
  body : payload
}.

(** ** A small exception monad for the [try] blocks *)

Inductive result (A : Type) : Type :=
| Ok (a : A)
| Throw (e : mongoose_error).
Arguments Ok {A} a.
Arguments Throw {A} e.

#[export] Instance result_bind : MBind result := λ A B k r,
  match r with
  | Ok a => k a
  | Throw e => Throw e
  end.

(** ** The schema of [models/Component.js]

    Only what the schema declares is modelled: the type of each path, the
    [required] flags and the [enum] of [status]. Mongoose's casts are
    restricted to their canonical inputs: a String path takes a JSON string,
    an ObjectId path takes the 24-digit hexadecimal text of an id, a Date
    path takes a number of milliseconds. Any other value is a [CastError]. *)

Definition status_enum : list string :=
  ["draft"; "review"; "approved"; "deprecated"].

Definition is_hex_digit (c : ascii) : bool :=
  let n := nat_of_ascii c in
  ((48 <=? n)%nat && (n <=? 57)%nat)
  || ((97 <=? n)%nat && (n <=? 102)%nat)
  || ((65 <=? n)%nat && (n <=? 70)%nat).

Definition lower_hex (c : ascii) : ascii :=
  let n := nat_of_ascii c in
  if (65 <=? n)%nat && (n <=? 70)%nat then ascii_of_nat (n + 32) else c.

Definition is_object_id (s : string) : bool :=
  (String.length s =? 24)%nat && forallb is_hex_digit (list_ascii_of_string s).

(** [ObjectId.toString()] prints lower-case digits. *)
Definition object_id_text (s : string) : string :=
  string_of_list_ascii (map lower_hex (list_ascii_of_string s)).

(** The id is the canonical text of an object id: 24 hexadecimal digits,
    none of them upper-case. The collection is keyed by such texts. *)
Definition canonical_id (s : string) : bool :=
  is_object_id s && String.eqb (object_id_text s) s.

Definition castString (path : string) (v : json) : result string :=
  match v with
  | JStr s => Ok s
  | _ => Throw (CastError path)
  end.

(** The cast of an ObjectId path, for the hexadecimal text of an id
    ([is_object_id]); other forms of an id that the driver reads are not
    modelled and are refused here. *)
Definition castObjectId (path : string) (v : json) : result string :=
  match v with
  | JStr s => if is_object_id s then Ok (object_id_text s) else Throw (CastError path)
  | _ => Throw (CastError path)
  end.

Definition castDate (path : string) (v : json) : result Z :=
  match v with
  | JNum n => Ok n
  | _ => Throw (CastError path)
  end.

(** [required: true] on a String path: the empty string is rejected. *)
Definition required (path : string) (s : string) : result unit :=
  if String.eqb s "" then Throw (ValidationError path) else Ok tt.

Definition in_enum (s : string) : bool :=
  existsb (String.eqb s) status_enum.

(** Validation run by [save()]. *)
Definition validate (c : Component) : result unit :=
  _ ← required "name" (name c);
  _ ← required "description" (description c);
  _ ← required "category" (category c);
  if in_enum (status c) then Ok tt else Throw (ValidationError "status").

(** ** The collection and the model's persistence operations *)

Abbreviation store := (gmap string Component).

(** [Component.findById(id)]: the document, or [null]. The [id] is looked
    up as it is written: the model agrees with the code when [id] is the
    canonical text of an object id ([canonical_id]); the cast of another
    [req.params.id], which makes the query throw, is not modelled. *)
Definition findById (db : store) (id : string) : option Component :=
  db !! id.

(** [component.save()] of a new document: validate, then insert. *)
Definition save_new (c : Component) (db : store) : result store :=
  _ ← validate c;
  match db !! _id c with
  | Some _ => Throw DuplicateKey
  | None => Ok (<[_id c := c]> db)
  end.

(** [component.save()] of a loaded document: validate, then write back. *)
Definition save (c : Component) (db : store) : result store :=
  _ ← validate c;
  Ok (<[_id c := c]> db).

(** [Component.findByIdAndDelete(id)]: the removed document, or [null];
    as for [findById], for an [id] that is the canonical text of an object
    id. *)
Definition findByIdAndDelete (db : store) (id : string) : option Component * store :=
  match db !! id with
  | Some c => (Some c, delete id db)
  | None => (None, db)
  end.

(** One setter of [Object.assign(component, updates)]: a key of the body
    that names a schema path goes through the path's cast; an absent key
    leaves the path as it is. *)
Definition set_path {A : Type} (cast : string -> json -> result A)
    (path : string) (updates : gmap string json) (current : A) : result A :=
  match updates !! path with
  | Some v => cast path v
  | None => Ok current
  end.

Definition set_payload (path : string) (updates : gmap string json) (current : json) : json :=
  match updates !! path with
  | Some v => v
  | None => current
  end.

(** [_id] cannot be changed on a stored document. *)
Definition keep_id (path : string) (current : string) (v : json) : result string :=
  i ← castObjectId path v;
  if String.eqb i current then Ok i else Throw (ImmutableField path).

(** [Object.assign(component, { ...updates, updatedAt: new Date() })].
    Every key of the body is assigned, [createdBy] and [status] included;
    keys that name no schema path are dropped by the model; [updatedAt]
    of the body is overridden by the current date. *)
Definition assign (c : Component) (updates : gmap string json) (now : Z) : result Component :=
  i ← set_path (fun p => keep_id p (_id c)) "_id" updates (_id c);
  n ← set_path castString "name" updates (name c);
  d ← set_path castString "description" updates (description c);
  g ← set_path castString "category" updates (category c);
  s ← set_path castString "status" updates (status c);
  o ← set_path castObjectId "createdBy" updates (createdBy c);
  t ← set_path castDate "createdAt" updates (createdAt c);
  Ok {| _id := i;
        name := n;
        description := d;
        category := g;
        props := set_payload "props" updates (props c);
        code := set_payload "code" updates (code c);
        designTokens := set_payload "designTokens" updates (designTokens c);
        tags := set_payload "tags" updates (tags c);
        status := s;
        createdBy := o;
        updatedAt := now;
        createdAt := t |}.

(** ** [routes/components.js] *)

(** A required path given to the constructor: [undefined] fails the
    [required] validation, any other value goes through the path's cast. *)
Definition construct {A : Type} (cast : string -> json -> result A)
    (path : string) (v : option json) : result A :=
  match v with
  | Some x => cast path x
  | None => Throw (ValidationError path)
  end.

(** [new Component({ ... })] of the POST handler. [oid] is the [_id] the
    constructor generates and [now] the value of [Date.now] for the two
    date defaults. *)
Definition new_Component (user : Identity) (fields : gmap string json)
    (oid : string) (now : Z) : result Component :=
  n ← construct castString "name" (fields !! "name");
  d ← construct castString "description" (fields !! "description");
  g ← construct castString "category" (fields !! "category");
  s ← castString "status" (or_else (fields !! "status") (JStr "draft"));
  o ← castObjectId "createdBy" (JStr (user_id user));
  Ok {| _id := oid;
        name := n;
        description := d;
        category := g;
        props := or_else (fields !! "props") (JArr []);
        code := or_else (fields !! "code") (JObj []);
        designTokens := or_else (fields !! "designTokens") (JArr []);
        tags := or_else (fields !! "tags") (JArr []);
        status := s;
        createdBy := o;
        updatedAt := now;
        createdAt := now |}.

(** The handler of [router.post('/')], run once [authenticateToken] has
    set [req.user]. [populate] only replaces the references of the answer
    by the documents they name; the answer carries the saved document. *)
Definition post_handler (user : Identity) (fields : gmap string json)
    (oid : string) (now : Z) (db : store) : response * store :=
  if negb (truthy (fields !! "name")) || negb (truthy (fields !! "description"))
     || negb (truthy (fields !! "category"))
  then (Json 400 (ErrorBody "Name, description, and category are required"), db)
  else
    match (c ← new_Component user fields oid now;
           db' ← save_new c db;
           Ok (c, db')) with
    | Ok (c, db') => (Json 201 (ComponentBody c), db')
    | Throw e => (Json 500 (CaughtBody e), db)
    end.

(** Lines 116-124 of the PUT handler: [None] when the handler goes on,
    [Some r] when it returns [r]. *)
Definition ownership_check (user : Identity) (component : Component)
    (updates : gmap string json) : option response :=
  if negb (String.eqb (createdBy component) (user_id user))
     && negb (String.eqb (role user) "admin")
  then
    if String.eqb (role user) "designer" && (size updates =? 1)%nat
       && is_string (updates !! "status") "review"
    then None
    else Some (Json 403 (ErrorBody "Permission denied"))
  else None.

(** Lines 126-129. *)
Definition approval_check (user : Identity) (updates : gmap string json) : option response :=
  if is_string (updates !! "status") "approved" && negb (String.eqb (role user) "admin")
  then Some (Json 403 (ErrorBody "Only admins can approve components"))
  else None.

(** The two checks in the order of the source. *)
Definition authorize_update (user : Identity) (component : Component)
    (updates : gmap string json) : option response :=
  match ownership_check user component updates with
  | Some r => Some r
  | None => approval_check user updates
  end.

(** The handler of [router.put('/:id')], run once [authenticateToken]
    has set [req.user]. *)
Definition put_handler (user : Identity) (id : string) (updates : gmap string json)
    (now : Z) (db : store) : response * store :=
  match findById db id with
  | None => (Json 404 (ErrorBody "Component not found"), db)
  | Some component =>
    match authorize_update user component updates with
    | Some denial => (denial, db)
    | None =>
      match (c ← assign component updates now;
             db' ← save c db;
             Ok (c, db')) with
      | Ok (c, db') => (Json 200 (ComponentBody c), db')
      | Throw e => (Json 500 (CaughtBody e), db)
      end
    end
  end.

(** The handler of [router.delete('/:id')], after both middlewares. *)
Definition delete_handler (id : string) (db : store) : response * store :=
  match findByIdAndDelete db id with
  | (None, db') => (Json 404 (ErrorBody "Component not found"), db')
  | (Some _, db') => (Json 200 (MessageBody "Component deleted successfully"), db')
  end.

(** ** [middleware/auth.js] *)

(** Modelled from the spec: the error kinds of section 7. The file
    [middleware/auth.js] that [routes/components.js] imports is not among
    the sources; its two middlewares are modelled from sections 4.1, 4.2
    and 4.4 of the specification. *)
Inductive error : Type :=
| Unauthenticated (reason : string)
| Forbidden (reason : string)
| NotFound.

(** Modelled from the spec: what decoding a token yields (section 4.1): the
    identity it asserts, the key it was signed with ([None] for an unsigned
    token) and its expiry time. *)
Record credential : Type := {
  claims : Identity;
  signed_with : option string;
  exp : Z
}.

Section CredentialVerifier.

(** Decoding of the token text, [None] for a malformed token; the signing
    scheme itself belongs to the token library. *)
Variable decode : string -> option credential.

(** The configured verification key. *)
Variable JWT_SECRET : string.

(** Modelled from the spec: a token is well signed when it carries a
    signature made with the configured key (section 4.1). *)
Definition well_signed (c : credential) : bool :=
  match signed_with c with
  | Some key => String.eqb key JWT_SECRET
  | None => false
  end.

(** Modelled from the spec: a token is expired once the current time has
    reached its expiry (section 4.1). *)
Definition expired (now : Z) (c : credential) : bool :=
  (exp c <=? now)%Z.

(** Modelled from the spec: [verify(rawToken) -> Identity |
    fails(Unauthenticated)] of section 4.1, a function of the token, the
    verification key and the current time. *)
Definition verify (now : Z) (rawToken : option string) : error + Identity :=
  match rawToken with
  | None => inl (Unauthenticated "missing token")
  | Some tok =>
    if String.eqb tok "" then inl (Unauthenticated "missing token")
    else
      match decode tok with
      | None => inl (Unauthenticated "invalid or expired")
      | Some c =>
        if well_signed c && negb (expired now c) then inr (claims c)
        else inl (Unauthenticated "invalid or expired")
      end
  end.

(** Modelled from the spec: the middleware [authenticateToken], which
    answers a failed [verify] itself and otherwise sets [req.user]. The
    status and text of its two answers are the ones the middleware tests
    of [tests/components.test.js] expect. *)
Definition authenticateToken (now : Z) (rawToken : option string) : response + Identity :=
  match rawToken with
  | None => inl (Json 401 (ErrorBody "Access token required"))
  | Some tok =>
    if String.eqb tok "" then inl (Json 401 (ErrorBody "Access token required"))
    else
      match decode tok with
      | None => inl (Json 403 (ErrorBody "Invalid or expired token"))
      | Some c =>
        if well_signed c && negb (expired now c) then inr (claims c)
        else inl (Json 403 (ErrorBody "Invalid or expired token"))
      end
  end.

End CredentialVerifier.

(** Modelled from the spec: the middleware [requireRole(roles)] (sections
    4.2 and 4.4, rule 1): the request goes on when the role of [req.user]
    is one of [roles], compared exactly; the text of the refusal is the one
    the tests expect. *)
Definition requireRole (roles : list string) (user : Identity) : option response :=
  if existsb (String.eqb (role user)) roles then None
  else Some (Json 403 (ErrorBody "Insufficient permissions")).

(** ** The routes: middlewares, then handler *)

Section Router.

Variable decode : string -> option credential.
Variable JWT_SECRET : string.

(** [router.post('/', authenticateToken, handler)] *)
Definition router_post (now : Z) (rawToken : option string)
    (fields : gmap string json) (oid : string) (db : store) : response * store :=
  match authenticateToken decode JWT_SECRET now rawToken with
  | inl r => (r, db)
  | inr user => post_handler user fields oid now db
  end.

(** [router.put('/:id', authenticateToken, handler)] *)
Definition router_put (now : Z) (rawToken : option string) (id : string)
    (updates : gmap string json) (db : store) : response * store :=
  match authenticateToken decode JWT_SECRET now rawToken with
  | inl r => (r, db)
  | inr user => put_handler user id updates now db
  end.

(** [router.delete('/:id', authenticateToken, requireRole(['admin']), handler)] *)
Definition router_delete (now : Z) (rawToken : option string) (id : string)
    (db : store) : response * store :=
  match authenticateToken decode JWT_SECRET now rawToken with
  | inl r => (r, db)
  | inr user =>
    match requireRole ["admin"] user with
    | Some r => (r, db)
    | None => delete_handler id db
    end
  end.

End Router.

(** The handler of [router.get('/:id')], run once [authenticateToken] has
    let the request through. As for the other handlers, [populate] only
    replaces references in the answer. *)
Definition get_handler (id : string) (db : store) : response :=
  match findById db id with
  | None => Json 404 (ErrorBody "Component not found")
  | Some component => Json 200 (ComponentBody component)
  end.

(** ** [routes/auth.js] *)

(** The fields of a [User] document that the handlers of [routes/auth.js]
    read: [user._id], [user.username], [user.email], [user.password] (the
    stored hash) and [user.role]. *)
Record User : Type := {
  User_id : string;
  User_username : string;
  User_email : string;
  User_password : string;
  User_role : string
}.

(** The [user] object of an answer: [{ id, username, email, role }]. *)
Record user_view : Type := {
  view_id : string;
  view_username : string;
  view_email : string;
  view_role : string
}.

(** What the token library signs and reads back: the payload
    [{ id, username, role }], the times of issue and expiry in seconds, and
    the key the signature was made with. *)
Record jwt : Type := {
  jwt_payload : Identity;
  iat : Z;
  jwt_exp : Z;
  key : string
}.

(** The bodies of the answers of the auth router. *)
Inductive auth_payload : Type :=
| AuthError (error : string)
| LoginBody (message : string) (token : string) (user : user_view)
| MeBody (user : user_view)
| DecodedBody (decoded : jwt).

Record auth_response : Type := AuthJson {
  auth_status : nat;
  auth_body : auth_payload
}.

(** An entry of the [testUsers] array of the login handler. *)
Record test_user : Type := {
  tu_email : string;
  tu_password : string;
  tu_username : string;
  tu_role : string
}.

Definition testUsers : list test_user :=
  [ {| tu_email := "admin@example.com"; tu_password := "password123";
       tu_username := "admin"; tu_role := "admin" |};
    {| tu_email := "designer@example.com"; tu_password := "password";
       tu_username := "designer"; tu_role := "designer" |};
    {| tu_email := "dev@example.com"; tu_password := "dev123";
       tu_username := "developer"; tu_role := "developer" |} ].

(** [s.split(' ')] *)
Fixpoint split_space (s : string) : list string :=
  match s with
  | EmptyString => [EmptyString]
  | String c rest =>
    if Ascii.eqb c " "
    then EmptyString :: split_space rest
    else
      match split_space rest with
      | piece :: pieces => String c piece :: pieces
      | [] => [String c EmptyString]
      end
  end.

(** [authHeader && authHeader.split(' ')[1]]: [None] is [undefined]. *)
Definition header_token (authHeader : option string) : option string :=
  match authHeader with
  | None => None
  | Some h => if String.eqb h "" then Some "" else split_space h !! 1%nat
  end.

Definition no_space (s : string) : bool :=
  forallb (fun c => negb (Ascii.eqb c " ")) (list_ascii_of_string s).

Section AuthRouter.

(** The token library: the text of a signed token and its reading, [None]
    for a text that is no token. *)
Variable jwt_encode : jwt -> string.
Variable jwt_decode : string -> option jwt.

(** [bcrypt.compare] on a password and a stored hash. *)
Variable bcrypt_compare : string -> string -> bool.

Variable JWT_SECRET : string.

(** [jwt.sign(payload, JWT_SECRET, { expiresIn: '24h' })] at time [now]. *)
Definition jwt_sign (claims : Identity) (now : Z) : string :=
  jwt_encode {| jwt_payload := claims; iat := now; jwt_exp := now + 86400; key := JWT_SECRET |}.

(** [jwt.verify(token, JWT_SECRET)] at time [now]: the decoded token, or
    [None] when the library throws (no token, other key, expired). *)
Definition jwt_verify (token : string) (now : Z) : option jwt :=
  match jwt_decode token with
  | Some t =>
    if String.eqb (key t) JWT_SECRET && (now <? jwt_exp t)%Z then Some t else None
  | None => None
  end.

(** The inner [try] block of the login handler (lines 94-116 of the auth
    router): [Some r] when it returns the answer [r], [None] when control
    reaches the fallback, also after an exception of the lookup or of
    [bcrypt.compare] (which throws on a password that is no string). *)
Definition database_login (findOne : option json -> result (option User))
    (email password : option json) (now : Z) : option auth_response :=
  match findOne email with
  | Ok (Some user) =>
    match password with
    | Some (JStr p) =>
      if bcrypt_compare p (User_password user)
      then Some (AuthJson 200
                   (LoginBody "Login successful"
                      (jwt_sign {| user_id := User_id user;
                                   username := User_username user;
                                   role := User_role user |} now)
                      {| view_id := User_id user;
                         view_username := User_username user;
                         view_email := User_email user;
                         view_role := User_role user |}))
      else None
    | _ => None
    end
  | Ok None => None
  | Throw _ => None
  end.

(** The fallback of the login handler: the hard-coded accounts. *)
Definition fallback_login (email password : option json) (now : Z) : auth_response :=
  match find (fun u => is_string email (tu_email u) && is_string password (tu_password u))
             testUsers with
  | Some testUser =>
    AuthJson 200
      (LoginBody "Login successful (test user)"
         (jwt_sign {| user_id := tu_email testUser;
                      username := tu_username testUser;
                      role := tu_role testUser |} now)
         {| view_id := tu_email testUser;
            view_username := tu_username testUser;
            view_email := tu_email testUser;
            view_role := tu_role testUser |})
  | None => AuthJson 401 (AuthError "Invalid credentials")
  end.

(** [router.post('/login')]. [findOne] is [User.findOne({ email })] on the
    database of the moment. *)
Definition login (findOne : option json -> result (option User))
    (fields : gmap string json) (now : Z) : auth_response :=
  let email := fields !! "email" in
  let password := fields !! "password" in
  if negb (truthy email) || negb (truthy password)
  then AuthJson 400 (AuthError "Email and password are required")
  else
    match database_login findOne email password now with
    | Some r => r
    | None => fallback_login email password now
    end.

(** [router.get('/me')]. [findUser] is [User.findById] on the database of
    the moment. *)
Definition me (authHeader : option string) (findUser : string -> result (option User))
    (now : Z) : auth_response :=
  match header_token authHeader with
  | None => AuthJson 401 (AuthError "No token provided")
  | Some token =>
    if String.eqb token "" then AuthJson 401 (AuthError "No token provided")
    else
      match jwt_verify token now with
      | None => AuthJson 403 (AuthError "Invalid token")
      | Some decoded =>
        match findUser (user_id (jwt_payload decoded)) with
        | Ok (Some user) =>
          AuthJson 200 (MeBody {| view_id := User_id user;
                                  view_username := User_username user;
                                  view_email := User_email user;
                                  view_role := User_role user |})
        | _ => AuthJson 200 (DecodedBody decoded)
        end
      end
  end.

End AuthRouter.

(** ** Sample data *)

Definition U1 : Identity :=
  {| user_id := "64a1b2c3d4e5f67890120001"; username := "testuser"; role := "designer" |}.

Definition U2 : Identity :=
  {| user_id := "64a1b2c3d4e5f67890120002"; username := "otheruser"; role := "designer" |}.

Definition U3 : Identity :=
  {| user_id := "64a1b2c3d4e5f67890120003"; username := "developer"; role := "developer" |}.

Definition admin : Identity :=
  {| user_id := "64a1b2c3d4e5f67890120009"; username := "admin"; role := "admin" |}.

(** The component the PUT tests start from: a draft created by [U1]. *)
Definition testComponent : Component :=
  {| _id := "64a1b2c3d4e5f678901200c1";
     name := "Test Component";
     description := "A test component";
     category := "button";
     props := JArr [];
     code := JObj [];
     designTokens := JArr [];
     tags := JArr [];
     status := "draft";
     createdBy := user_id U1;
     updatedAt := 1000;
     createdAt := 1000 |}.

Definition db1 : store := {[ _id testComponent := testComponent ]}.

Definition submit_for_review : gmap string json := {[ "status" := JStr "review" ]}.
Definition approve : gmap string json := {[ "status" := JStr "approved" ]}.

(** Tokens the sample decoder knows; every other text is malformed. *)
Definition sample_decode (tok : string) : option credential :=
  if String.eqb tok "designer-token"
  then Some {| claims := U1; signed_with := Some "your-secret-key"; exp := 5000 |}
  else if String.eqb tok "admin-token"
  then Some {| claims := admin; signed_with := Some "your-secret-key"; exp := 5000 |}
  else if String.eqb tok "expired-token"
  then Some {| claims := U1; signed_with := Some "your-secret-key"; exp := 10 |}
  else if String.eqb tok "wrong-secret-token"
  then Some {| claims := U1; signed_with := Some "wrong-secret"; exp := 5000 |}
  else None.

(** A token library for the examples: one session token, issued to the
    hard-coded designer account at time 1000. *)
Definition designer_session : jwt :=
  {| jwt_payload := {| user_id := "designer@example.com"; username := "designer";
                       role := "designer" |};
     iat := 1000;
     jwt_exp := 87400;
     key := "your-secret-key" |}.

Definition sample_jwt_encode (t : jwt) : string :=
  "session." ++ username (jwt_payload t).

Definition sample_jwt_decode (tok : string) : option jwt :=
  if String.eqb tok "session.designer" then Some designer_session else None.

Definition sample_bcrypt_compare (p hash : string) : bool :=
  String.eqb hash ("bcrypt:" ++ p).

Definition stored_user : User :=
  {| User_id := user_id U1;
     User_username := "testuser";
     User_email := "test@example.com";
     User_password := "bcrypt:hunter2";
     User_role := "designer" |}.

(** A database that holds [stored_user] only; an array of emails is
    matched when it names the user's. *)
Definition sample_findOne (email : option json) : result (option User) :=
  match email with
  | Some (JStr e) => if String.eqb e "test@example.com" then Ok (Some stored_user) else Ok None
  | Some (JArr items) =>
    if existsb (fun v => is_string (Some v) "test@example.com") items
    then Ok (Some stored_user) else Ok None
  | _ => Ok None
  end.

Definition credentials (email password : string) : gmap string json :=
  <[ "email" := JStr email ]> {[ "password" := JStr password ]}.

(** * Properties *)

(** ** Basic facts about the JavaScript operators *)

Lemma is_string_true (v : option json) (lit : string) :
  is_string v lit = true ↔ v = Some (JStr lit).
Proof.
  unfold is_string. split.
  - destruct v as [[ | | | s | | ]|]; try discriminate.
    intros H. apply String.eqb_eq in H. by subst.
  - intros ->. apply String.eqb_refl.
Qed.

Lemma is_string_false (v : option json) (lit : string) :
  is_string v lit = false ↔ v ≠ Some (JStr lit).
Proof.
  rewrite <- is_string_true. destruct (is_string v lit); split; congruence.
Qed.

Lemma eqb_false_iff (a b : string) : String.eqb a b = false ↔ a ≠ b.
Proof. apply String.eqb_neq. Qed.

(** A body with one key is the singleton of any binding it has. *)
Lemma size_one_lookup (updates : gmap string json) (k : string) (v : json) :
  size updates = 1 → updates !! k = Some v → updates = {[ k := v ]}.
Proof.
  intros Hsize Hk.
  assert (Hdel : delete k updates = ∅).
  { apply map_size_empty_inv. rewrite map_size_delete, Hk, Hsize. done. }
  rewrite <- (insert_delete_id updates k v Hk), Hdel. apply insert_empty.
Qed.

Lemma two_keys_size (updates : gmap string json) (k1 k2 : string) :
  k1 ≠ k2 → is_Some (updates !! k1) → is_Some (updates !! k2) → size updates ≠ 1.
Proof.
  intros Hne [v1 H1] [v2 H2] Hsize.
  rewrite (size_one_lookup updates k1 v1 Hsize H1) in H2.
  rewrite lookup_singleton_ne in H2 by done. discriminate.
Qed.

(** ** The two checks of the PUT handler *)

Lemma ownership_check_owner (user : Identity) (c : Component) (updates : gmap string json) :
  createdBy c = user_id user → ownership_check user c updates = None.
Proof.
  intros Hown. unfold ownership_check. rewrite Hown, String.eqb_refl. done.
Qed.

Lemma ownership_check_admin (user : Identity) (c : Component) (updates : gmap string json) :
  role user = "admin" → ownership_check user c updates = None.
Proof.
  intros Hadm. unfold ownership_check. rewrite Hadm.
  by rewrite andb_false_r.
Qed.

(** For a caller who is neither the owner nor an admin the first check
    lets exactly one request through. *)
Lemma ownership_check_other (user : Identity) (c : Component) (updates : gmap string json) :
  createdBy c ≠ user_id user → role user ≠ "admin" →
  ownership_check user c updates =
    if String.eqb (role user) "designer" && (size updates =? 1)%nat
       && is_string (updates !! "status") "review"
    then None else Some (Json 403 (ErrorBody "Permission denied")).
Proof.
  intros Hown Hadm. unfold ownership_check.
  apply eqb_false_iff in Hown, Hadm. by rewrite Hown, Hadm.
Qed.

Lemma approval_check_None (user : Identity) (updates : gmap string json) :
  approval_check user updates = None
  ↔ updates !! "status" ≠ Some (JStr "approved") ∨ role user = "admin".
Proof.
  unfold approval_check.
  destruct (is_string (updates !! "status") "approved") eqn:Hst;
    destruct (String.eqb_spec (role user) "admin") as [Hadm|Hadm]; simpl.
  - split; auto.
  - apply is_string_true in Hst. split; [discriminate | intros [?|?]; done].
  - split; auto.
  - apply is_string_false in Hst. split; auto.
Qed.

Lemma approval_check_Some (user : Identity) (updates : gmap string json) :
  updates !! "status" = Some (JStr "approved") → role user ≠ "admin" →
  approval_check user updates =
    Some (Json 403 (ErrorBody "Only admins can approve components")).
Proof.
  intros Hst Hadm. unfold approval_check.
  apply is_string_true in Hst. apply eqb_false_iff in Hadm.
  by rewrite Hst, Hadm.
Qed.

Lemma authorize_update_owner (user : Identity) (c : Component) (updates : gmap string json) :
  createdBy c = user_id user →
  authorize_update user c updates = approval_check user updates.
Proof.
  intros Hown. unfold authorize_update. by rewrite ownership_check_owner.
Qed.

Lemma authorize_update_admin (user : Identity) (c : Component) (updates : gmap string json) :
  role user = "admin" → authorize_update user c updates = None.
Proof.
  intros Hadm. unfold authorize_update. rewrite ownership_check_admin by done.
  apply approval_check_None. by right.
Qed.

(** ** Submitting for review *)

(** C1, as stated, fails: [U2] is a designer, is not the owner of
    [testComponent] and is no admin, yet the update [{status: 'review'}]
    passes both checks and is saved. *)
Lemma designer_not_owner_submits_for_review :
  createdBy testComponent ≠ user_id U2
  ∧ role U2 ≠ "admin"
  ∧ authorize_update U2 testComponent {[ "status" := JStr "review" ]} = None
  ∧ http_status (put_handler U2 (_id testComponent) {[ "status" := JStr "review" ]} 2000 db1).1
    = 200
  ∧ status <$> (put_handler U2 (_id testComponent) {[ "status" := JStr "review" ]} 2000 db1).2
                 !! _id testComponent
    = Some "review".
Proof.
  split; [discriminate|]. split; [discriminate|].
  split; [vm_compute; reflexivity|].
  split; vm_compute; reflexivity.
Qed.

(** C1 (amended): an update whose field set is exactly [{status: 'review'}]
    is allowed if and only if the caller is the owner of the component, an
    admin, or a designer; in every other case it is answered with
    403 'Permission denied'. *)
Theorem submit_for_review_allowed_iff (user : Identity) (c : Component) :
  (authorize_update user c {[ "status" := JStr "review" ]} = None
   ↔ createdBy c = user_id user ∨ role user = "admin" ∨ role user = "designer")
  ∧ (¬ (createdBy c = user_id user ∨ role user = "admin" ∨ role user = "designer") →
     authorize_update user c {[ "status" := JStr "review" ]}
     = Some (Json 403 (ErrorBody "Permission denied"))).
Proof.
  set (updates := {[ "status" := JStr "review" ]} : gmap string json).
  assert (Happ : approval_check user updates = None).
  { apply approval_check_None. left. unfold updates.
    rewrite lookup_singleton_eq. discriminate. }
  destruct (String.eqb_spec (createdBy c) (user_id user)) as [Hown|Hown].
  { rewrite authorize_update_owner by done.
    split; [split; auto | intros Hno; exfalso; auto]. }
  destruct (String.eqb_spec (role user) "admin") as [Hadm|Hadm].
  { rewrite authorize_update_admin by done.
    split; [split; auto | intros Hno; exfalso; auto]. }
  unfold authorize_update. rewrite ownership_check_other by done.
  assert (Hone : (size updates =? 1)%nat = true).
  { unfold updates. by rewrite map_size_singleton. }
  assert (Hrev : is_string (updates !! "status") "review" = true).
  { apply is_string_true. unfold updates. by rewrite lookup_singleton_eq. }
  rewrite Hone, Hrev, !andb_true_r.
  destruct (String.eqb_spec (role user) "designer") as [Hdes|Hdes].
  - rewrite Happ. split; [split; auto | intros Hno; exfalso; auto].
  - split; [|reflexivity]. split; [discriminate|].
    intros [?|[?|?]]; contradiction.
Qed.

(** ** Approving *)

(** C3, as stated, fails: [U3] is no admin and not the owner; the first
    check answers the approval with 'Permission denied', so the refusal is
    not 'Only admins can approve components' and the approval rule is not
    the first one evaluated. *)
Lemma approval_by_stranger_hits_ownership_check :
  role U3 ≠ "admin"
  ∧ authorize_update U3 testComponent {[ "status" := JStr "approved" ]}
    = Some (Json 403 (ErrorBody "Permission denied"))
  ∧ authorize_update U3 testComponent {[ "status" := JStr "approved" ]}
    ≠ Some (Json 403 (ErrorBody "Only admins can approve components")).
Proof.
  split; [discriminate|]. split; [vm_compute; reflexivity|].
  vm_compute. discriminate.
Qed.

(** C3 (amended): an update that sets [status] to 'approved' is allowed if
    and only if the caller's role is admin, whoever owns the component. The
    ownership check runs first: a non-admin owner is answered with
    403 'Only admins can approve components', a non-admin caller who is not
    the owner with 403 'Permission denied'. *)
Theorem approve_allowed_iff_admin (user : Identity) (c : Component)
    (updates : gmap string json) :
  updates !! "status" = Some (JStr "approved") →
  (authorize_update user c updates = None ↔ role user = "admin")
  ∧ (role user ≠ "admin" → createdBy c = user_id user →
     authorize_update user c updates
     = Some (Json 403 (ErrorBody "Only admins can approve components")))
  ∧ (role user ≠ "admin" → createdBy c ≠ user_id user →
     authorize_update user c updates
     = Some (Json 403 (ErrorBody "Permission denied"))).
Proof.
  intros Hst.
  assert (Howner : role user ≠ "admin" → createdBy c = user_id user →
            authorize_update user c updates
            = Some (Json 403 (ErrorBody "Only admins can approve components"))).
  { intros Hadm Hown. rewrite authorize_update_owner by done.
    by apply approval_check_Some. }
  assert (Hother : role user ≠ "admin" → createdBy c ≠ user_id user →
            authorize_update user c updates
            = Some (Json 403 (ErrorBody "Permission denied"))).
  { intros Hadm Hown. unfold authorize_update.
    rewrite ownership_check_other by done.
    assert (Hrev : is_string (updates !! "status") "review" = false).
    { apply is_string_false. rewrite Hst. discriminate. }
    by rewrite Hrev, andb_false_r. }
  split; [|split; assumption].
  split.
  - intros Hnone. destruct (String.eqb_spec (role user) "admin") as [|Hadm]; [done|].
    destruct (String.eqb_spec (createdBy c) (user_id user)) as [Hown|Hown].
    + rewrite Howner in Hnone by done. discriminate.
    + rewrite Hother in Hnone by done. discriminate.
  - apply authorize_update_admin.
Qed.

Lemma approve_allowed_iff_admin_witness :
  ({[ "status" := JStr "approved" ]} : gmap string json) !! "status"
    = Some (JStr "approved")
  ∧ authorize_update U1 testComponent {[ "status" := JStr "approved" ]}
    = Some (Json 403 (ErrorBody "Only admins can approve components")).
Proof.
  split; [reflexivity|].
  apply (approve_allowed_iff_admin U1 testComponent {[ "status" := JStr "approved" ]});
    [reflexivity | discriminate | reflexivity].
Defined.

(** ** Updates by the owner *)

(** C4, as stated, fails: [U1] owns [testComponent], and the update
    [{status: 'approved'}] is refused. *)
Lemma owner_cannot_approve :
  createdBy testComponent = user_id U1
  ∧ authorize_update U1 testComponent {[ "status" := JStr "approved" ]}
    = Some (Json 403 (ErrorBody "Only admins can approve components")).
Proof. split; [reflexivity | vm_compute; reflexivity]. Qed.

(** C4 (amended): for every caller whose id is the component's
    [createdBy], whatever the role, the update is allowed if and only if it
    does not set [status] to 'approved' or the caller is an admin. *)
Theorem owner_update_allowed (user : Identity) (c : Component)
    (updates : gmap string json) :
  createdBy c = user_id user →
  (authorize_update user c updates = None
   ↔ updates !! "status" ≠ Some (JStr "approved") ∨ role user = "admin").
Proof.
  intros Hown. rewrite authorize_update_owner by done.
  apply approval_check_None.
Qed.

Lemma owner_update_allowed_witness :
  createdBy testComponent = user_id U1
  ∧ authorize_update U1 testComponent
      (<[ "name" := JStr "Updated Component" ]> {[ "status" := JStr "review" ]}) = None.
Proof.
  split; [reflexivity|].
  apply (owner_update_allowed U1 testComponent
           (<[ "name" := JStr "Updated Component" ]> {[ "status" := JStr "review" ]}));
    [reflexivity | left; vm_compute; discriminate].
Defined.

(** ** Mixed updates *)

(** C6: for a caller who is neither the owner nor an admin, an update whose
    body has a [status] field and at least one other field is answered with
    403 'Permission denied'; such a caller's update is let through only when
    the body is exactly [{status: 'review'}]. *)
Theorem mixed_update_denied (user : Identity) (c : Component)
    (updates : gmap string json) :
  createdBy c ≠ user_id user → role user ≠ "admin" →
  (∀ k, k ≠ "status" → is_Some (updates !! "status") → is_Some (updates !! k) →
     authorize_update user c updates = Some (Json 403 (ErrorBody "Permission denied")))
  ∧ (authorize_update user c updates = None →
     updates = {[ "status" := JStr "review" ]}).
Proof.
  intros Hown Hadm. unfold authorize_update.
  rewrite ownership_check_other by done. split.
  - intros k Hk Hst Hother.
    assert (Hsz : (size updates =? 1)%nat = false).
    { apply Nat.eqb_neq. by apply (two_keys_size updates "status" k). }
    by rewrite Hsz, andb_false_r.
  - destruct (String.eqb (role user) "designer"); [|discriminate].
    destruct (Nat.eqb_spec (size updates) 1) as [Hsz|]; [|discriminate].
    destruct (is_string (updates !! "status") "review") eqn:Hrev; [|discriminate].
    intros _. apply is_string_true in Hrev. by apply size_one_lookup.
Qed.

Lemma mixed_update_denied_witness :
  createdBy testComponent ≠ user_id U2
  ∧ role U2 ≠ "admin"
  ∧ authorize_update U2 testComponent
      (<[ "name" := JStr "Unauthorized Update" ]> {[ "status" := JStr "review" ]})
    = Some (Json 403 (ErrorBody "Permission denied")).
Proof.
  split; [discriminate|]. split; [discriminate|].
  apply (mixed_update_denied U2 testComponent
           (<[ "name" := JStr "Unauthorized Update" ]> {[ "status" := JStr "review" ]}))
    with (k := "name");
    [discriminate | discriminate | discriminate
    | vm_compute; eauto | vm_compute; eauto].
Defined.

(** ** Exceptions and the setters of [Object.assign] *)

Lemma bind_Ok {A B : Type} (r : result A) (k : A → result B) (b : B) :
  r ≫= k = Ok b → ∃ a, r = Ok a ∧ k a = Ok b.
Proof. destruct r as [a|e]; simpl; [eauto | discriminate]. Qed.

Ltac inv_bind H :=
  repeat (apply bind_Ok in H; destruct H as (? & ? & H)).

Lemma set_path_absent {A : Type} (cast : string → json → result A)
    (path : string) (updates : gmap string json) (current x : A) :
  updates !! path = None → set_path cast path updates current = Ok x → x = current.
Proof. unfold set_path. intros ->. congruence. Qed.

Lemma set_path_string (path : string) (updates : gmap string json) (current x : string) :
  set_path castString path updates current = Ok x →
  match updates !! path with
  | Some v => v = JStr x
  | None => x = current
  end.
Proof.
  unfold set_path. destruct (updates !! path) as [[ | | | s | | ]|]; simpl; congruence.
Qed.

Lemma set_path_keep_id (updates : gmap string json) (current x : string) :
  set_path (λ p, keep_id p current) "_id" updates current = Ok x → x = current.
Proof.
  unfold set_path. destruct (updates !! "_id") as [v|]; [|congruence].
  unfold keep_id. intros H. apply bind_Ok in H as (i & _ & H).
  destruct (String.eqb_spec i current); congruence.
Qed.

(** What a successful [Object.assign] leaves in the document. *)
Lemma assign_Ok (c c' : Component) (updates : gmap string json) (now : Z) :
  assign c updates now = Ok c' →
  _id c' = _id c
  ∧ updatedAt c' = now
  ∧ (updates !! "createdBy" = None → createdBy c' = createdBy c)
  ∧ match updates !! "status" with
    | Some v => v = JStr (status c')
    | None => status c' = status c
    end.
Proof.
  unfold assign. intros H. inv_bind H. injection H as <-. simpl.
  repeat split.
  - by eapply set_path_keep_id.
  - intros Hnone. eapply set_path_absent; eassumption.
  - by apply set_path_string with (current := status c).
Qed.

(** ** The collection: every document is stored under its [_id] *)

Definition store_ok (db : store) : bool :=
  forallb (λ kc, String.eqb (_id kc.2) kc.1) (map_to_list db).

Lemma store_ok_lookup (db : store) :
  store_ok db = true ↔ ∀ k c, db !! k = Some c → _id c = k.
Proof.
  unfold store_ok. rewrite forallb_forall. split.
  - intros H k c Hk. apply String.eqb_eq.
    apply (H (k, c)). apply list_elem_of_In. by apply elem_of_map_to_list.
  - intros H [k c] Hin. apply String.eqb_eq. apply H.
    apply elem_of_map_to_list. by apply list_elem_of_In.
Qed.

(** ** The PUT handler, case by case *)

Lemma authorize_update_403 (user : Identity) (c : Component)
    (updates : gmap string json) (r : response) :
  authorize_update user c updates = Some r → http_status r = 403.
Proof.
  unfold authorize_update, ownership_check, approval_check.
  repeat match goal with
         | |- context [if ?b then _ else _] => destruct b
         end; intros H; inversion H; reflexivity.
Qed.

Inductive put_outcome (user : Identity) (id : string) (updates : gmap string json)
    (now : Z) (db : store) : response * store → Prop :=
| put_not_found :
    db !! id = None →
    put_outcome user id updates now db (Json 404 (ErrorBody "Component not found"), db)
| put_denied c r :
    db !! id = Some c → authorize_update user c updates = Some r →
    put_outcome user id updates now db (r, db)
| put_failed c e :
    db !! id = Some c → authorize_update user c updates = None →
    put_outcome user id updates now db (Json 500 (CaughtBody e), db)
| put_saved c c' :
    db !! id = Some c → authorize_update user c updates = None →
    assign c updates now = Ok c' → validate c' = Ok tt →
    put_outcome user id updates now db (Json 200 (ComponentBody c'), <[ _id c' := c' ]> db).

Lemma put_handler_outcome (user : Identity) (id : string) (updates : gmap string json)
    (now : Z) (db : store) :
  put_outcome user id updates now db (put_handler user id updates now db).
Proof.
  unfold put_handler, findById.
  destruct (db !! id) as [c|] eqn:Hc; [|by constructor].
  destruct (authorize_update user c updates) as [r|] eqn:Hauth; [by econstructor|].
  destruct (assign c updates now) as [c'|e] eqn:Hassign; simpl; [|by econstructor].
  unfold save. destruct (validate c') as [[]|e] eqn:Hval; simpl; by econstructor.
Qed.

(** Only a 200 answer changes the collection. *)
Lemma put_handler_unchanged (user : Identity) (id : string) (updates : gmap string json)
    (now : Z) (db : store) :
  http_status (put_handler user id updates now db).1 ≠ 200 →
  (put_handler user id updates now db).2 = db.
Proof.
  destruct (put_handler_outcome user id updates now db); simpl; done.
Qed.

(** ** The POST handler *)

Lemma castString_Ok (path : string) (v : json) (s : string) :
  castString path v = Ok s → v = JStr s.
Proof. destruct v; simpl; congruence. Qed.

Lemma castObjectId_Ok (path : string) (s o : string) :
  castObjectId path (JStr s) = Ok o → is_object_id s = true ∧ o = object_id_text s.
Proof. simpl. destruct (is_object_id s); [|discriminate]. intros [= <-]. done. Qed.



Lemma new_Component_Ok (user : Identity) (fields : gmap string json)
    (oid : string) (now : Z) (c : Component) :
  new_Component user fields oid now = Ok c →
  _id c = oid
  ∧ createdBy c = object_id_text (user_id user)
  ∧ or_else (fields !! "status") (JStr "draft") = JStr (status c).
Proof.
  unfold new_Component. intros H. inv_bind H. injection H as <-. simpl.
  repeat split.
  - by eapply castObjectId_Ok.
  - by eapply castString_Ok.
Qed.

Inductive post_outcome (user : Identity) (fields : gmap string json) (oid : string)
    (now : Z) (db : store) : response * store → Prop :=
| post_incomplete :
    post_outcome user fields oid now db
      (Json 400 (ErrorBody "Name, description, and category are required"), db)
| post_failed e :
    post_outcome user fields oid now db (Json 500 (CaughtBody e), db)
| post_created c :
    new_Component user fields oid now = Ok c → validate c = Ok tt → db !! oid = None →
    post_outcome user fields oid now db (Json 201 (ComponentBody c), <[ oid := c ]> db).

Lemma post_handler_outcome (user : Identity) (fields : gmap string json) (oid : string)
    (now : Z) (db : store) :
  post_outcome user fields oid now db (post_handler user fields oid now db).
Proof.
  unfold post_handler.
  destruct (_ || _); [by constructor|].
  destruct (new_Component user fields oid now) as [c|e] eqn:Hnew; simpl; [|by constructor].
  apply new_Component_Ok in Hnew as Hc. destruct Hc as (Hid & _).
  unfold save_new. destruct (validate c) as [[]|e] eqn:Hval; simpl; [|by constructor].
  rewrite Hid. destruct (db !! oid) eqn:Hfree; simpl; by constructor.
Qed.

(** A complete request of a caller with a well-formed id, naming a free
    [_id] and either no status or one of the enumeration, is answered 201. *)
Lemma post_handler_succeeds (user : Identity) (fields : gmap string json) (oid : string)
    (now : Z) (db : store) (n d g : string) :
  fields !! "name" = Some (JStr n) → n ≠ "" →
  fields !! "description" = Some (JStr d) → d ≠ "" →
  fields !! "category" = Some (JStr g) → g ≠ "" →
  (fields !! "status" = None
   ∨ ∃ s, fields !! "status" = Some (JStr s) ∧ in_enum s = true) →
  is_object_id (user_id user) = true → db !! oid = None →
  http_status (post_handler user fields oid now db).1 = 201.
Proof.
  intros Hn Hn' Hd Hd' Hg Hg' Hst Huser Hfree.
  apply eqb_false_iff in Hn', Hd', Hg'.
  assert (HOk : ∃ s, or_else (fields !! "status") (JStr "draft") = JStr s
                     ∧ in_enum s = true).
  { destruct Hst as [-> | (s & -> & Hs)]; [by exists "draft"|].
    exists s. split; [|done]. unfold or_else, truthy.
    by destruct (String.eqb_spec s "") as [->|_]. }
  destruct HOk as (s & Hs & Henum).
  unfold post_handler, new_Component, construct, save_new, validate, required.
  rewrite Hn, Hd, Hg, Hs. simpl.
  repeat (rewrite ?Hn', ?Hd', ?Hg', ?Huser, ?Henum, ?Hfree; simpl).
  reflexivity.
Qed.

(** ** Status on creation *)

Definition new_button (extra : gmap string json) : gmap string json :=
  <[ "name" := JStr "Primary Button" ]>
    (<[ "description" := JStr "Main action button" ]>
       (<[ "category" := JStr "button" ]> extra)).




(** ** The invariant of the collection is kept by every handler *)

Lemma store_ok_insert (db : store) (c : Component) :
  store_ok db = true → store_ok (<[ _id c := c ]> db) = true.
Proof.
  rewrite !store_ok_lookup. intros Hdb k c' Hk.
  destruct (decide (_id c = k)) as [<-|Hne].
  - rewrite lookup_insert_eq in Hk. congruence.
  - rewrite lookup_insert_ne in Hk by done. by apply Hdb.
Qed.

Lemma post_handler_store_ok (user : Identity) (fields : gmap string json) (oid : string)
    (now : Z) (db : store) :
  store_ok db = true → store_ok (post_handler user fields oid now db).2 = true.
Proof.
  intros Hdb.
  destruct (post_handler_outcome user fields oid now db) as [|e|c Hnew _ _]; simpl; try done.
  apply new_Component_Ok in Hnew as (<- & _). by apply store_ok_insert.
Qed.

Lemma put_handler_store_ok (user : Identity) (id : string) (updates : gmap string json)
    (now : Z) (db : store) :
  store_ok db = true → store_ok (put_handler user id updates now db).2 = true.
Proof.
  intros Hdb.
  destruct (put_handler_outcome user id updates now db); simpl; try done.
  by apply store_ok_insert.
Qed.

Lemma delete_handler_snd (id : string) (db : store) :
  (delete_handler id db).2 = delete id db.
Proof.
  unfold delete_handler, findByIdAndDelete.
  destruct (db !! id) eqn:Hid; simpl; [done|]. symmetry. by apply delete_id.
Qed.

Lemma delete_handler_store_ok (id : string) (db : store) :
  store_ok db = true → store_ok (delete_handler id db).2 = true.
Proof.
  rewrite delete_handler_snd, !store_ok_lookup. intros Hdb k c Hk.
  apply lookup_delete_Some in Hk as [_ Hk]. by apply Hdb.
Qed.

(** ** Ownership is assigned at creation *)

(** C2, as stated, fails: the owner [U1] sends the update
    [{createdBy: <id of U2>}]; it is answered 200 and the stored document
    now names [U2] as its creator. *)
Lemma update_reassigns_createdBy :
  createdBy <$> db1 !! _id testComponent = Some (user_id U1)
  ∧ http_status (put_handler U1 (_id testComponent)
                   {[ "createdBy" := JStr (user_id U2) ]} 2000 db1).1 = 200
  ∧ createdBy <$> (put_handler U1 (_id testComponent)
                     {[ "createdBy" := JStr (user_id U2) ]} 2000 db1).2
                    !! _id testComponent
    = Some (user_id U2)
  ∧ user_id U2 ≠ user_id U1.
Proof.
  split; [vm_compute; reflexivity|]. split; [vm_compute; reflexivity|].
  split; [vm_compute; reflexivity | discriminate].
Qed.

(** C2 (amended): [createdBy] is set at creation from the id of the
    authenticated caller: for a caller whose id is the 24-digit hexadecimal
    text of an object id, the component created is stored with that object
    id as [createdBy]. Creating or deleting components never changes the
    [createdBy] of a stored component, and neither does an update request
    whose body has no [createdBy] field. *)
Theorem createdBy_set_at_creation (user : Identity) (db : store) :
  store_ok db = true →
  (∀ fields oid now,
     is_object_id (user_id user) = true →
     http_status (post_handler user fields oid now db).1 = 201 →
     createdBy <$> (post_handler user fields oid now db).2 !! oid
     = Some (object_id_text (user_id user)))
  ∧ (∀ fields oid now k c,
       db !! k = Some c → (post_handler user fields oid now db).2 !! k = Some c)
  ∧ (∀ id updates now k,
       updates !! "createdBy" = None →
       createdBy <$> (put_handler user id updates now db).2 !! k = createdBy <$> db !! k)
  ∧ (∀ id k c, (delete_handler id db).2 !! k = Some c → db !! k = Some c).
Proof.
  intros Hdb. repeat split.
  - intros fields oid now _ H201.
    destruct (post_handler_outcome user fields oid now db) as [|e|c Hnew _ _];
      [discriminate H201 | discriminate H201 |].
    simpl. rewrite lookup_insert_eq. simpl.
    by apply new_Component_Ok in Hnew as (_ & -> & _).
  - intros fields oid now k c Hk.
    destruct (post_handler_outcome user fields oid now db) as [|e|c' _ _ Hfree]; simpl; try done.
    rewrite lookup_insert_ne; [done|]. intros <-. congruence.
  - intros id updates now k Hnone.
    destruct (put_handler_outcome user id updates now db) as [|c r|c e|c c' Hc _ Hassign _];
      simpl; try done.
    apply assign_Ok in Hassign as (Hid & _ & Hby & _).
    pose proof (proj1 (store_ok_lookup db) Hdb) as Hwf. rewrite Hid, (Hwf _ _ Hc).
    destruct (decide (id = k)) as [<-|Hne].
    + rewrite lookup_insert_eq, Hc. simpl. by rewrite Hby.
    + by rewrite lookup_insert_ne.
  - intros id k c. rewrite delete_handler_snd.
    intros Hk. by apply lookup_delete_Some in Hk as [_ Hk].
Qed.

Lemma createdBy_set_at_creation_witness :
  store_ok db1 = true
  ∧ (∀ k, createdBy <$> (put_handler U1 (_id testComponent)
                           {[ "name" := JStr "Updated Component" ]} 2000 db1).2 !! k
          = createdBy <$> db1 !! k)
  ∧ is_object_id (user_id U1) = true
  ∧ http_status (post_handler U1 (new_button ∅) "64a1b2c3d4e5f678901200c2" 2000 db1).1 = 201
  ∧ createdBy <$> (post_handler U1 (new_button ∅) "64a1b2c3d4e5f678901200c2" 2000 db1).2
                    !! "64a1b2c3d4e5f678901200c2"
    = Some (object_id_text (user_id U1)).
Proof.
  assert (Hok : store_ok db1 = true) by (vm_compute; reflexivity).
  assert (Hid : is_object_id (user_id U1) = true) by (vm_compute; reflexivity).
  assert (H201 : http_status (post_handler U1 (new_button ∅)
                                "64a1b2c3d4e5f678901200c2" 2000 db1).1 = 201)
    by (vm_compute; reflexivity).
  destruct (createdBy_set_at_creation U1 db1 Hok) as (Hpost & _ & Hput & _).
  split; [exact Hok|]. split.
  - intros k. apply Hput. vm_compute. reflexivity.
  - split; [exact Hid|]. split; [exact H201|].
    exact (Hpost (new_button ∅) "64a1b2c3d4e5f678901200c2" 2000%Z Hid H201).
Defined.

(** ** Refused updates *)

(** Whatever the route answers, short of 200, the collection is kept. *)
Lemma router_put_unchanged (decode : string → option credential) (JWT_SECRET : string)
    (now : Z) (rawToken : option string) (id : string) (updates : gmap string json)
    (db : store) :
  http_status (router_put decode JWT_SECRET now rawToken id updates db).1 ≠ 200 →
  (router_put decode JWT_SECRET now rawToken id updates db).2 = db.
Proof.
  unfold router_put.
  destruct (authenticateToken decode JWT_SECRET now rawToken) as [r|user]; [done|].
  apply put_handler_unchanged.
Qed.



(** ** Credential verification *)

Section VerifierFacts.

Variable decode : string → option credential.
Variable JWT_SECRET : string.

Lemma well_signed_true (c : credential) :
  well_signed JWT_SECRET c = true ↔ signed_with c = Some JWT_SECRET.
Proof.
  unfold well_signed. destruct (signed_with c) as [key|]; [|done].
  rewrite String.eqb_eq. split; congruence.
Qed.

(** A well-formed token signed with the configured key and not yet
    expired yields the identity it asserts. *)
Lemma verify_valid (now : Z) (tok : string) (c : credential) :
  tok ≠ "" → decode tok = Some c →
  signed_with c = Some JWT_SECRET → (now < exp c)%Z →
  verify decode JWT_SECRET now (Some tok) = inr (claims c).
Proof.
  intros Htok Hdec Hsig Hexp. unfold verify.
  apply eqb_false_iff in Htok. rewrite Htok, Hdec.
  apply well_signed_true in Hsig. rewrite Hsig. unfold expired.
  destruct (Z.leb_spec (exp c) now); [lia | done].
Qed.

(** The middleware lets through exactly the requests whose token
    verifies, with the same identity; a missing token is answered 401 and
    an invalid one 403. *)
Lemma authenticateToken_verify (now : Z) (rawToken : option string) :
  match verify decode JWT_SECRET now rawToken with
  | inr user => authenticateToken decode JWT_SECRET now rawToken = inr user
  | inl e =>
    (e = Unauthenticated "missing token"
     ∧ authenticateToken decode JWT_SECRET now rawToken
       = inl (Json 401 (ErrorBody "Access token required")))
    ∨ (e = Unauthenticated "invalid or expired"
       ∧ authenticateToken decode JWT_SECRET now rawToken
         = inl (Json 403 (ErrorBody "Invalid or expired token")))
  end.
Proof.
  unfold verify, authenticateToken.
  destruct rawToken as [tok|]; [|by left].
  destruct (String.eqb tok ""); [by left|].
  destruct (decode tok) as [c|]; [|by right].
  destruct (well_signed JWT_SECRET c && negb (expired now c)); [done | by right].
Qed.

End VerifierFacts.

(** C8: a token that is malformed, unsigned or signed with another key, or
    expired is refused with [Unauthenticated "invalid or expired"], whatever
    the cause; verification then yields neither a [Forbidden] error nor an
    identity. A missing or empty token is refused with
    [Unauthenticated "missing token"]. *)
Theorem invalid_token_unauthenticated (decode : string → option credential)
    (JWT_SECRET : string) (now : Z) (tok : string) :
  tok ≠ "" →
  (decode tok = None
   ∨ ∃ c, decode tok = Some c
          ∧ (signed_with c ≠ Some JWT_SECRET ∨ (exp c <= now)%Z)) →
  verify decode JWT_SECRET now (Some tok) = inl (Unauthenticated "invalid or expired")
  ∧ (∀ reason, verify decode JWT_SECRET now (Some tok) ≠ inl (Forbidden reason))
  ∧ (∀ user, verify decode JWT_SECRET now (Some tok) ≠ inr user)
  ∧ verify decode JWT_SECRET now None = inl (Unauthenticated "missing token")
  ∧ verify decode JWT_SECRET now (Some "") = inl (Unauthenticated "missing token").
Proof.
  intros Htok Hbad.
  assert (Hfail : verify decode JWT_SECRET now (Some tok)
                  = inl (Unauthenticated "invalid or expired")).
  { unfold verify. apply eqb_false_iff in Htok. rewrite Htok.
    destruct Hbad as [-> | (c & -> & Hc)]; [done|].
    destruct (well_signed JWT_SECRET c) eqn:Hsig; [|done].
    apply well_signed_true in Hsig. destruct Hc as [Hc|Hc]; [done|].
    unfold expired. destruct (Z.leb_spec (exp c) now); [done | lia]. }
  rewrite Hfail. repeat split; discriminate.
Qed.

Lemma invalid_token_unauthenticated_witness :
  "expired-token" ≠ ""
  ∧ (sample_decode "expired-token" = None
     ∨ ∃ c, sample_decode "expired-token" = Some c
            ∧ (signed_with c ≠ Some "your-secret-key" ∨ (exp c <= 2000)%Z))
  ∧ verify sample_decode "your-secret-key" 2000 (Some "expired-token")
    = inl (Unauthenticated "invalid or expired").
Proof.
  assert (Hbad : sample_decode "expired-token" = None
     ∨ ∃ c, sample_decode "expired-token" = Some c
            ∧ (signed_with c ≠ Some "your-secret-key" ∨ (exp c <= 2000)%Z)).
  { right. eexists. split; [reflexivity|]. right. simpl. lia. }
  split; [discriminate|]. split; [exact Hbad|].
  apply (invalid_token_unauthenticated sample_decode "your-secret-key" 2000 "expired-token");
    [discriminate | exact Hbad].
Defined.

(** ** Deleting *)

Lemma requireRole_admin (user : Identity) :
  requireRole ["admin"] user = None ↔ role user = "admin".
Proof.
  unfold requireRole. simpl. rewrite orb_false_r.
  destruct (String.eqb_spec (role user) "admin"); split; congruence.
Qed.

Lemma delete_handler_status (id : string) (db : store) :
  http_status (delete_handler id db).1 = 200 ∨ http_status (delete_handler id db).1 = 404.
Proof.
  unfold delete_handler, findByIdAndDelete. destruct (db !! id); simpl; auto.
Qed.

(** C7: for an authenticated caller the delete route goes on to its
    handler if and only if the caller's role is admin; every other role is
    answered 403 'Insufficient permissions', whoever owns the component,
    and nothing is deleted. *)
Theorem delete_admin_only (decode : string → option credential) (JWT_SECRET : string)
    (now : Z) (rawToken : option string) (user : Identity) (id : string) (db : store) :
  authenticateToken decode JWT_SECRET now rawToken = inr user →
  (requireRole ["admin"] user = None ↔ role user = "admin")
  ∧ (role user = "admin" →
     router_delete decode JWT_SECRET now rawToken id db = delete_handler id db)
  ∧ (role user ≠ "admin" →
     router_delete decode JWT_SECRET now rawToken id db
     = (Json 403 (ErrorBody "Insufficient permissions"), db))
  ∧ (http_status (router_delete decode JWT_SECRET now rawToken id db).1 = 403
     ↔ role user ≠ "admin").
Proof.
  intros Hauth. unfold router_delete. rewrite Hauth.
  pose proof (requireRole_admin user) as Hrole.
  split; [exact Hrole|].
  destruct (requireRole ["admin"] user) as [r|] eqn:Hreq.
  - assert (Hadm : role user ≠ "admin").
    { intros Hadm. apply Hrole in Hadm. discriminate. }
    unfold requireRole in Hreq.
    destruct (existsb _ _); [discriminate|]. injection Hreq as <-.
    repeat split; try done.
  - assert (Hadm : role user = "admin") by by apply Hrole.
    repeat split; try done.
    destruct (delete_handler_status id db) as [H|H]; rewrite H; discriminate.
Qed.

Lemma delete_admin_only_witness :
  authenticateToken sample_decode "your-secret-key" 2000 (Some "designer-token") = inr U1
  ∧ router_delete sample_decode "your-secret-key" 2000 (Some "designer-token")
      (_id testComponent) db1
    = (Json 403 (ErrorBody "Insufficient permissions"), db1).
Proof.
  split; [reflexivity|].
  apply (delete_admin_only sample_decode "your-secret-key" 2000 (Some "designer-token") U1);
    [reflexivity | discriminate].
Defined.

(** ** Order of the checks *)

(** C10: the delete route checks the role before it looks the component
    up, so a caller who is no admin is answered 403 'Insufficient
    permissions' for every id, stored or not; the update route looks the
    component up first, so an update of a component that does not exist (a
    well-formed id, the canonical text of an object id, that is not stored)
    is answered 404 'Component not found' for every caller. *)
Theorem role_before_existence (decode : string → option credential) (JWT_SECRET : string)
    (now : Z) (rawToken : option string) (user : Identity) (id : string)
    (updates : gmap string json) (db : store) :
  authenticateToken decode JWT_SECRET now rawToken = inr user →
  (role user ≠ "admin" →
   router_delete decode JWT_SECRET now rawToken id db
   = (Json 403 (ErrorBody "Insufficient permissions"), db))
  ∧ (canonical_id id = true → db !! id = None →
     router_put decode JWT_SECRET now rawToken id updates db
     = (Json 404 (ErrorBody "Component not found"), db)).
Proof.
  intros Hauth. unfold router_delete, router_put. rewrite Hauth. split.
  - intros Hadm. unfold requireRole. simpl. rewrite orb_false_r.
    apply eqb_false_iff in Hadm. by rewrite Hadm.
  - intros _ Hid. unfold put_handler, findById. by rewrite Hid.
Qed.

Lemma role_before_existence_witness :
  authenticateToken sample_decode "your-secret-key" 2000 (Some "designer-token") = inr U1
  ∧ role U1 ≠ "admin"
  ∧ canonical_id "64a1b2c3d4e5f6789012345a" = true
  ∧ db1 !! "64a1b2c3d4e5f6789012345a" = None
  ∧ router_delete sample_decode "your-secret-key" 2000 (Some "designer-token")
      "64a1b2c3d4e5f6789012345a" db1
    = (Json 403 (ErrorBody "Insufficient permissions"), db1)
  ∧ router_put sample_decode "your-secret-key" 2000 (Some "designer-token")
      "64a1b2c3d4e5f6789012345a" {[ "status" := JStr "approved" ]} db1
    = (Json 404 (ErrorBody "Component not found"), db1).
Proof.
  assert (Hid : db1 !! "64a1b2c3d4e5f6789012345a" = None) by (vm_compute; reflexivity).
  assert (Hcanon : canonical_id "64a1b2c3d4e5f6789012345a" = true)
    by (vm_compute; reflexivity).
  split; [reflexivity|]. split; [discriminate|]. split; [exact Hcanon|].
  split; [exact Hid|].
  split.
  - apply (role_before_existence sample_decode "your-secret-key" 2000
             (Some "designer-token") U1 "64a1b2c3d4e5f6789012345a" ∅ db1);
      [reflexivity | discriminate].
  - apply (role_before_existence sample_decode "your-secret-key" 2000
             (Some "designer-token") U1 "64a1b2c3d4e5f6789012345a"
             {[ "status" := JStr "approved" ]} db1);
      [reflexivity | exact Hcanon | exact Hid].
Defined.

(** * Further properties of the component router *)

(** ** Reading back what was written *)


Lemma get_handler_absent (id : string) (db : store) :
  get_handler id db = Json 404 (ErrorBody "Component not found") ↔ db !! id = None.
Proof.
  unfold get_handler, findById. destruct (db !! id) as [c'|]; split; congruence.
Qed.



(** X2: a create request changes the collection only when it is answered
    201, and then by exactly one document: the new [_id] joins the stored
    ids and the collection grows by one. A request answered 201 had truthy
    [name], [description] and [category]. *)
Theorem post_adds_one (user : Identity) (fields : gmap string json) (oid : string)
    (now : Z) (db : store) :
  (http_status (post_handler user fields oid now db).1 ≠ 201 →
   (post_handler user fields oid now db).2 = db)
  ∧ (http_status (post_handler user fields oid now db).1 = 201 →
     dom (post_handler user fields oid now db).2 = {[ oid ]} ∪ dom db
     ∧ size (post_handler user fields oid now db).2 = S (size db)
     ∧ truthy (fields !! "name") = true
     ∧ truthy (fields !! "description") = true
     ∧ truthy (fields !! "category") = true).
Proof.
  split.
  - destruct (post_handler_outcome user fields oid now db); simpl; done.
  - intros H201.
    assert (Hguard : truthy (fields !! "name") = true
                     ∧ truthy (fields !! "description") = true
                     ∧ truthy (fields !! "category") = true).
    { unfold post_handler in H201.
      destruct (truthy (fields !! "name")), (truthy (fields !! "description")),
        (truthy (fields !! "category")); simpl in H201; try discriminate H201; done. }
    destruct (post_handler_outcome user fields oid now db) as [|e|c _ _ Hfree];
      [discriminate H201 | discriminate H201 |].
    simpl. split; [by rewrite dom_insert_L|].
    split; [by apply map_size_insert_None | exact Hguard].
Qed.

(** ** Deleting *)

(** X3: after a delete of a well-formed id (the canonical text of an
    object id), a read of the same [_id] is answered 404, and a second
    delete of it is answered 404 and leaves the collection as the first one
    left it. *)
Theorem delete_then_get (id : string) (db : store) :
  canonical_id id = true →
  get_handler id (delete_handler id db).2 = Json 404 (ErrorBody "Component not found")
  ∧ delete_handler id (delete_handler id db).2
    = (Json 404 (ErrorBody "Component not found"), (delete_handler id db).2).
Proof.
  intros _. rewrite delete_handler_snd. split.
  - apply get_handler_absent. apply lookup_delete_eq.
  - unfold delete_handler at 1, findByIdAndDelete. by rewrite lookup_delete_eq.
Qed.

Lemma delete_then_get_witness :
  canonical_id (_id testComponent) = true
  ∧ get_handler (_id testComponent) (delete_handler (_id testComponent) db1).2
    = Json 404 (ErrorBody "Component not found")
  ∧ delete_handler (_id testComponent) (delete_handler (_id testComponent) db1).2
    = (Json 404 (ErrorBody "Component not found"),
       (delete_handler (_id testComponent) db1).2).
Proof.
  assert (Hcanon : canonical_id (_id testComponent) = true) by (vm_compute; reflexivity).
  split; [exact Hcanon|].
  exact (delete_then_get (_id testComponent) db1 Hcanon).
Defined.

(** X4: for a well-formed id (the canonical text of an object id) the
    delete handler answers 200 exactly when the [_id] was stored and 404
    otherwise; in the first case the collection loses that document and no
    other, in the second it is unchanged. *)
Theorem delete_removes_one (id : string) (db : store) :
  canonical_id id = true →
  (http_status (delete_handler id db).1 = 200 ↔ is_Some (db !! id))
  ∧ (http_status (delete_handler id db).1 = 404 ↔ db !! id = None)
  ∧ (db !! id = None → (delete_handler id db).2 = db)
  ∧ (is_Some (db !! id) → S (size (delete_handler id db).2) = size db)
  ∧ (∀ k, k ≠ id → (delete_handler id db).2 !! k = db !! k).
Proof.
  intros _.
  assert (Hcode : http_status (delete_handler id db).1
                  = match db !! id with Some _ => 200 | None => 404 end).
  { unfold delete_handler, findByIdAndDelete. by destruct (db !! id). }
  rewrite Hcode, delete_handler_snd.
  destruct (db !! id) as [c|] eqn:Hc.
  - split; [split; eauto|]. split; [split; discriminate|].
    split; [discriminate|]. split.
    + intros _. rewrite map_size_delete, Hc.
      destruct (size db) eqn:Hsz; [|done].
      apply map_size_empty_inv in Hsz. subst. by rewrite lookup_empty in Hc.
    + intros k Hk. by apply lookup_delete_ne.
  - split; [split; [discriminate | intros [c Hsome]; discriminate]|].
    split; [done|]. split; [intros _; by apply delete_id|].
    split; [intros [c Hsome]; discriminate|].
    intros k Hk. by apply lookup_delete_ne.
Qed.

Lemma delete_removes_one_witness :
  canonical_id (_id testComponent) = true
  ∧ http_status (delete_handler (_id testComponent) db1).1 = 200
  ∧ S (size (delete_handler (_id testComponent) db1).2) = size db1.
Proof.
  assert (Hcanon : canonical_id (_id testComponent) = true) by (vm_compute; reflexivity).
  assert (Hstored : is_Some (db1 !! _id testComponent)) by (vm_compute; eauto).
  destruct (delete_removes_one (_id testComponent) db1 Hcanon)
    as (H200 & _ & _ & Hsize & _).
  split; [exact Hcanon|]. split; [exact (proj2 H200 Hstored) | exact (Hsize Hstored)].
Defined.

(** ** Updating *)





(** X7: an update by an admin of a stored component is never refused: the
    answer is 200, or 500 when the new content is rejected by the schema,
    whoever created the component and whatever the body holds. *)
Theorem admin_update_never_refused (user : Identity) (id : string)
    (updates : gmap string json) (now : Z) (db : store) :
  role user = "admin" → is_Some (db !! id) →
  http_status (put_handler user id updates now db).1 = 200
  ∨ http_status (put_handler user id updates now db).1 = 500.
Proof.
  intros Hadm [c Hc].
  destruct (put_handler_outcome user id updates now db) as [Hnone|c' r Hc' Hr| |];
    simpl; auto.
  - congruence.
  - rewrite authorize_update_admin in Hr by done. discriminate.
Qed.

Lemma admin_update_never_refused_witness :
  role admin = "admin"
  ∧ is_Some (db1 !! _id testComponent)
  ∧ (http_status (put_handler admin (_id testComponent)
                    {[ "status" := JStr "approved" ]} 2000 db1).1 = 200
     ∨ http_status (put_handler admin (_id testComponent)
                      {[ "status" := JStr "approved" ]} 2000 db1).1 = 500).
Proof.
  assert (Hc : is_Some (db1 !! _id testComponent)) by (vm_compute; eauto).
  split; [reflexivity|]. split; [exact Hc|].
  exact (admin_update_never_refused admin (_id testComponent)
           {[ "status" := JStr "approved" ]} 2000 db1 eq_refl Hc).
Defined.

(** The body that the first check lets through for a caller who is neither
    owner nor admin. *)
Lemma stranger_allowed_body (user : Identity) (c : Component) (updates : gmap string json) :
  createdBy c ≠ user_id user → role user ≠ "admin" →
  authorize_update user c updates = None →
  role user = "designer" ∧ updates = {[ "status" := JStr "review" ]}.
Proof.
  intros Hown Hadm. unfold authorize_update.
  rewrite ownership_check_other by done.
  destruct (String.eqb_spec (role user) "designer") as [Hdes|]; [|discriminate].
  destruct (Nat.eqb_spec (size updates) 1) as [Hsz|]; [|discriminate].
  destruct (is_string (updates !! "status") "review") eqn:Hrev; [|discriminate].
  intros _. apply is_string_true in Hrev. split; [done|]. by apply size_one_lookup.
Qed.

(** The document [c] once submitted for review at time [now]. *)
Definition submitted (c : Component) (now : Z) : Component :=
  {| _id := _id c;
     name := name c;
     description := description c;
     category := category c;
     props := props c;
     code := code c;
     designTokens := designTokens c;
     tags := tags c;
     status := "review";
     createdBy := createdBy c;
     updatedAt := now;
     createdAt := createdAt c |}.

Lemma assign_review (c : Component) (now : Z) :
  assign c {[ "status" := JStr "review" ]} now = Ok (submitted c now).
Proof. reflexivity. Qed.

(** X8: when an update by a caller who is neither the owner nor an admin
    is answered 200, the stored document differs from the one before in its
    [status], now 'review', and its [updatedAt] only. *)
Theorem exemption_changes_status_only (user : Identity) (id : string)
    (updates : gmap string json) (now : Z) (db : store) (c : Component) :
  db !! id = Some c → createdBy c ≠ user_id user → role user ≠ "admin" →
  http_status (put_handler user id updates now db).1 = 200 →
  put_handler user id updates now db
  = (Json 200 (ComponentBody (submitted c now)), <[ _id c := submitted c now ]> db).
Proof.
  intros Hc Hown Hadm H200.
  destruct (put_handler_outcome user id updates now db)
    as [|c0 r Hc0 Hr|c0 e|c0 c' Hc0 Hauth Hassign _]; simpl in *; try discriminate H200.
  - apply authorize_update_403 in Hr. congruence.
  - assert (c0 = c) as -> by congruence.
    destruct (stranger_allowed_body user c updates Hown Hadm Hauth) as [_ ->].
    rewrite assign_review in Hassign. injection Hassign as <-. reflexivity.
Qed.

Lemma exemption_changes_status_only_witness :
  db1 !! _id testComponent = Some testComponent
  ∧ createdBy testComponent ≠ user_id U2
  ∧ role U2 ≠ "admin"
  ∧ put_handler U2 (_id testComponent) {[ "status" := JStr "review" ]} 2000 db1
    = (Json 200 (ComponentBody (submitted testComponent 2000)),
       <[ _id testComponent := submitted testComponent 2000 ]> db1).
Proof.
  assert (Hc : db1 !! _id testComponent = Some testComponent) by (vm_compute; reflexivity).
  assert (Hown : createdBy testComponent ≠ user_id U2) by discriminate.
  assert (Hadm : role U2 ≠ "admin") by discriminate.
  split; [exact Hc|]. split; [exact Hown|]. split; [exact Hadm|].
  apply (exemption_changes_status_only U2 (_id testComponent)
           {[ "status" := JStr "review" ]} 2000 db1 testComponent Hc Hown Hadm).
  vm_compute. reflexivity.
Defined.

(** The [status] of the body is absent or a JSON string. *)
Definition status_is_text (updates : gmap string json) : bool :=
  match updates !! "status" with
  | None => true
  | Some (JStr _) => true
  | Some _ => false
  end.

Lemma authorize_update_approval (user : Identity) (c : Component)
    (updates : gmap string json) :
  authorize_update user c updates = None → approval_check user updates = None.
Proof.
  unfold authorize_update. by destruct (ownership_check user c updates).
Qed.

(** X9: an update by a caller who is not an admin, with a textual status
    or none in its body, never leaves an approved component in the
    collection that was not approved before the request. *)
Theorem non_admin_cannot_approve (user : Identity) (id : string)
    (updates : gmap string json) (now : Z) (db : store) :
  role user ≠ "admin" → status_is_text updates = true → store_ok db = true →
  ∀ k c', (put_handler user id updates now db).2 !! k = Some c' →
          status c' = "approved" →
          ∃ c, db !! k = Some c ∧ status c = "approved".
Proof.
  intros Hadm _ Hdb k c' Hk Happ.
  pose proof (proj1 (store_ok_lookup db) Hdb) as Hwf.
  destruct (put_handler_outcome user id updates now db)
    as [|c0 r|c0 e|c0 c1 Hc0 Hauth Hassign _]; simpl in *; eauto.
  apply authorize_update_approval, approval_check_None in Hauth.
  apply assign_Ok in Hassign as (Hid & _ & _ & Hst).
  rewrite Hid, (Hwf _ _ Hc0) in Hk.
  destruct (decide (id = k)) as [<-|Hne].
  - rewrite lookup_insert_eq in Hk. injection Hk as ->.
    exists c0. split; [done|].
    destruct (updates !! "status") as [v|]; [|congruence].
    destruct Hauth as [Hno|]; [|done]. exfalso. apply Hno. by rewrite Hst, Happ.
  - rewrite lookup_insert_ne in Hk by done. eauto.
Qed.

Lemma non_admin_cannot_approve_witness :
  role U1 ≠ "admin"
  ∧ status_is_text {[ "status" := JStr "review" ]} = true
  ∧ store_ok db1 = true
  ∧ ∀ k c', (put_handler U1 (_id testComponent) {[ "status" := JStr "review" ]}
               2000 db1).2 !! k = Some c' →
            status c' = "approved" →
            ∃ c, db1 !! k = Some c ∧ status c = "approved".
Proof.
  assert (Hadm : role U1 ≠ "admin") by discriminate.
  assert (Htext : status_is_text {[ "status" := JStr "review" ]} = true)
    by (vm_compute; reflexivity).
  assert (Hok : store_ok db1 = true) by (vm_compute; reflexivity).
  split; [exact Hadm|]. split; [exact Htext|]. split; [exact Hok|].
  exact (non_admin_cannot_approve U1 (_id testComponent)
           {[ "status" := JStr "review" ]} 2000 db1 Hadm Htext Hok).
Defined.

(** X10: a caller who is neither the owner of a stored component, nor an
    admin, nor a designer cannot update it: every body is answered
    403 'Permission denied' and the collection is kept. *)
Theorem outsider_cannot_modify (user : Identity) (id : string)
    (updates : gmap string json) (now : Z) (db : store) (c : Component) :
  db !! id = Some c → createdBy c ≠ user_id user →
  role user ≠ "admin" → role user ≠ "designer" →
  put_handler user id updates now db = (Json 403 (ErrorBody "Permission denied"), db).
Proof.
  intros Hc Hown Hadm Hdes. unfold put_handler, findById, authorize_update.
  rewrite Hc, ownership_check_other by done.
  apply eqb_false_iff in Hdes. by rewrite Hdes.
Qed.

Lemma outsider_cannot_modify_witness :
  db1 !! _id testComponent = Some testComponent
  ∧ createdBy testComponent ≠ user_id U3
  ∧ role U3 ≠ "admin" ∧ role U3 ≠ "designer"
  ∧ put_handler U3 (_id testComponent) {[ "status" := JStr "review" ]} 2000 db1
    = (Json 403 (ErrorBody "Permission denied"), db1).
Proof.
  assert (Hc : db1 !! _id testComponent = Some testComponent) by (vm_compute; reflexivity).
  split; [exact Hc|]. split; [discriminate|]. split; [discriminate|]. split; [discriminate|].
  apply (outsider_cannot_modify U3 (_id testComponent) {[ "status" := JStr "review" ]}
           2000 db1 testComponent Hc); discriminate.
Defined.

(** ** What the schema guarantees of every stored component *)

Definition is_valid (c : Component) : bool :=
  match validate c with
  | Ok _ => true
  | Throw _ => false
  end.

Definition store_valid (db : store) : bool :=
  forallb (λ kc, is_valid kc.2) (map_to_list db).

Lemma store_valid_lookup (db : store) :
  store_valid db = true ↔ ∀ k c, db !! k = Some c → is_valid c = true.
Proof.
  unfold store_valid. rewrite forallb_forall. split.
  - intros H k c Hk. apply (H (k, c)). apply list_elem_of_In. by apply elem_of_map_to_list.
  - intros H [k c] Hin. apply (H k). apply elem_of_map_to_list. by apply list_elem_of_In.
Qed.

Lemma is_valid_spec (c : Component) :
  is_valid c = true
  ↔ name c ≠ "" ∧ description c ≠ "" ∧ category c ≠ "" ∧ In (status c) status_enum.
Proof.
  unfold is_valid, validate, required.
  destruct (String.eqb_spec (name c) "") as [Hn|Hn]; simpl.
  { split; [discriminate | intros (? & _); done]. }
  destruct (String.eqb_spec (description c) "") as [Hd|Hd]; simpl.
  { split; [discriminate | intros (_ & ? & _); done]. }
  destruct (String.eqb_spec (category c) "") as [Hg|Hg]; simpl.
  { split; [discriminate | intros (_ & _ & ? & _); done]. }
  unfold in_enum. destruct (existsb (String.eqb (status c)) status_enum) eqn:Hs.
  - apply existsb_exists in Hs as (s & Hin & Heq). apply String.eqb_eq in Heq. subst s.
    split; auto.
  - split; [discriminate|]. intros (_ & _ & _ & Hin).
    assert (existsb (String.eqb (status c)) status_enum = true) as Hex.
    { apply existsb_exists. exists (status c). split; [done | apply String.eqb_refl]. }
    congruence.
Qed.

Lemma store_valid_insert (db : store) (k : string) (c : Component) :
  store_valid db = true → validate c = Ok tt → store_valid (<[ k := c ]> db) = true.
Proof.
  rewrite !store_valid_lookup. intros Hdb Hval k' c' Hk'.
  destruct (decide (k = k')) as [<-|Hne].
  - rewrite lookup_insert_eq in Hk'. injection Hk' as <-. unfold is_valid. by rewrite Hval.
  - rewrite lookup_insert_ne in Hk' by done. by apply (Hdb k').
Qed.

(** X11: if every stored component has a non-empty name, description and
    category and a status of the enumeration, the same holds after any
    create request, any update whose status is textual or absent, and any
    delete. *)
Theorem stored_components_stay_valid (user : Identity) (fields updates : gmap string json)
    (id oid : string) (now : Z) (db : store) :
  store_valid db = true →
  let valid (c : Component) :=
    name c ≠ "" ∧ description c ≠ "" ∧ category c ≠ "" ∧ In (status c) status_enum in
  (∀ k c, (post_handler user fields oid now db).2 !! k = Some c → valid c)
  ∧ (status_is_text updates = true →
     ∀ k c, (put_handler user id updates now db).2 !! k = Some c → valid c)
  ∧ (∀ k c, (delete_handler id db).2 !! k = Some c → valid c).
Proof.
  intros Hdb valid.
  assert (Hall : ∀ db' : store, store_valid db' = true →
                   ∀ k c, db' !! k = Some c → valid c).
  { intros db' Hdb' k c Hk. apply is_valid_spec.
    by apply (proj1 (store_valid_lookup db') Hdb' k). }
  split; [|split].
  - apply Hall.
    destruct (post_handler_outcome user fields oid now db) as [|e|c _ Hval _]; simpl; try done.
    by apply store_valid_insert.
  - intros _. apply Hall.
    destruct (put_handler_outcome user id updates now db) as [|c r|c e|c c' _ _ _ Hval];
      simpl; try done.
    by apply store_valid_insert.
  - intros k c. rewrite delete_handler_snd. intros Hk.
    apply lookup_delete_Some in Hk as [_ Hk]. by apply (Hall db Hdb k).
Qed.

Lemma stored_components_stay_valid_witness :
  store_valid db1 = true
  ∧ ∀ k c, (put_handler U1 (_id testComponent) {[ "status" := JStr "archived" ]}
              2000 db1).2 !! k = Some c →
           In (status c) status_enum.
Proof.
  assert (Hok : store_valid db1 = true) by (vm_compute; reflexivity).
  split; [exact Hok|]. intros k c Hk.
  destruct (stored_components_stay_valid U1 ∅ {[ "status" := JStr "archived" ]}
              (_id testComponent) "64a1b2c3d4e5f678901200c2" 2000 db1 Hok)
    as (_ & Hput & _).
  apply (Hput eq_refl k c Hk).
Defined.

(** * Properties of the auth router *)

Section LoginFacts.

Variable jwt_encode : jwt → string.
Variable bcrypt_compare : string → string → bool.
Variable JWT_SECRET : string.

(** The answer of a successful login for the identity [claims]. *)
Definition session (message : string) (claims : Identity) (email : string) (now : Z)
    : auth_response :=
  AuthJson 200
    (LoginBody message (jwt_sign jwt_encode JWT_SECRET claims now)
       {| view_id := user_id claims;
          view_username := username claims;
          view_email := email;
          view_role := role claims |}).

Definition database_match (findOne : option json → result (option User))
    (email password : option json) : Prop :=
  ∃ u p, findOne email = Ok (Some u) ∧ password = Some (JStr p)
         ∧ bcrypt_compare p (User_password u) = true.

Definition test_match (email password : option json) : Prop :=
  ∃ t, In t testUsers ∧ email = Some (JStr (tu_email t))
       ∧ password = Some (JStr (tu_password t)).

Lemma database_login_Some (findOne : option json → result (option User))
    (email password : option json) (now : Z) (r : auth_response) :
  database_login jwt_encode bcrypt_compare JWT_SECRET findOne email password now = Some r
  ↔ ∃ u p, findOne email = Ok (Some u) ∧ password = Some (JStr p)
           ∧ bcrypt_compare p (User_password u) = true
           ∧ r = session "Login successful"
                   {| user_id := User_id u; username := User_username u;
                      role := User_role u |} (User_email u) now.
Proof.
  unfold database_login, session. split.
  - destruct (findOne email) as [[u|]|e]; try discriminate.
    destruct password as [[ | | | p | | ]|]; try discriminate.
    destruct (bcrypt_compare p (User_password u)) eqn:Hcmp; [|discriminate].
    intros [= <-]. by exists u, p.
  - intros (u & p & -> & -> & -> & ->). done.
Qed.

Lemma database_login_None (findOne : option json → result (option User))
    (email password : option json) (now : Z) :
  database_login jwt_encode bcrypt_compare JWT_SECRET findOne email password now = None
  ↔ ¬ database_match findOne email password.
Proof.
  unfold database_match. split.
  - intros Hnone (u & p & Hu & Hp & Hcmp).
    assert (∃ r, database_login jwt_encode bcrypt_compare JWT_SECRET findOne
                   email password now = Some r) as [r Hr].
    { eexists. apply database_login_Some. by exists u, p. }
    congruence.
  - intros Hno.
    destruct (database_login jwt_encode bcrypt_compare JWT_SECRET findOne
                email password now) as [r|] eqn:Hr; [|done].
    apply database_login_Some in Hr as (u & p & ? & ? & ? & _).
    exfalso. apply Hno. by exists u, p.
Qed.

Lemma fallback_login_cases (email password : option json) (now : Z) :
  (∃ t, In t testUsers ∧ email = Some (JStr (tu_email t))
        ∧ password = Some (JStr (tu_password t))
        ∧ fallback_login jwt_encode JWT_SECRET email password now
          = session "Login successful (test user)"
              {| user_id := tu_email t; username := tu_username t; role := tu_role t |}
              (tu_email t) now)
  ∨ (¬ test_match email password
     ∧ fallback_login jwt_encode JWT_SECRET email password now
       = AuthJson 401 (AuthError "Invalid credentials")).
Proof.
  unfold fallback_login.
  destruct (find _ testUsers) as [t|] eqn:Hfind.
  - left. apply find_some in Hfind as [Hin Hmatch].
    apply andb_true_iff in Hmatch as [He Hp].
    apply is_string_true in He, Hp. by exists t.
  - right. split; [|done]. intros (t & Hin & He & Hp).
    pose proof (find_none _ _ Hfind t Hin) as Hno. simpl in Hno.
    rewrite He, Hp in Hno. simpl in Hno. by rewrite !String.eqb_refl in Hno.
Qed.

(** X12: the login handler answers 200, 400 or 401 and nothing else,
    whatever the request and the database; when the database lookup
    fails, the answer is the one given when no user is found, never 500. *)
Theorem login_survives_database_failure (findOne : option json → result (option User))
    (fields : gmap string json) (now : Z) :
  (auth_status (login jwt_encode bcrypt_compare JWT_SECRET findOne fields now) = 200
   ∨ auth_status (login jwt_encode bcrypt_compare JWT_SECRET findOne fields now) = 400
   ∨ auth_status (login jwt_encode bcrypt_compare JWT_SECRET findOne fields now) = 401)
  ∧ (∀ e, findOne (fields !! "email") = Throw e →
          login jwt_encode bcrypt_compare JWT_SECRET findOne fields now
          = login jwt_encode bcrypt_compare JWT_SECRET (λ _, Ok None) fields now).
Proof.
  split.
  - unfold login. destruct (_ || _); simpl; [auto|].
    destruct (database_login jwt_encode bcrypt_compare JWT_SECRET findOne
                (fields !! "email") (fields !! "password") now) as [r|] eqn:Hdb.
    + apply database_login_Some in Hdb as (u & p & _ & _ & _ & ->). simpl. auto.
    + destruct (fallback_login_cases (fields !! "email") (fields !! "password") now)
        as [(t & _ & _ & _ & ->) | [_ ->]]; simpl; auto.
  - intros e Hthrow. unfold login, database_login. by rewrite Hthrow.
Qed.

(** X13: the login handler answers 200 exactly when email and password are
    truthy and either the database holds a user for the email whose hash
    matches the (textual) password, or the pair is one of the hard-coded
    accounts; it answers 400 exactly when email or password is missing or
    falsy. *)
Theorem login_success_iff (findOne : option json → result (option User))
    (fields : gmap string json) (now : Z) :
  (auth_status (login jwt_encode bcrypt_compare JWT_SECRET findOne fields now) = 200
   ↔ truthy (fields !! "email") = true ∧ truthy (fields !! "password") = true
     ∧ (database_match findOne (fields !! "email") (fields !! "password")
        ∨ test_match (fields !! "email") (fields !! "password")))
  ∧ (auth_status (login jwt_encode bcrypt_compare JWT_SECRET findOne fields now) = 400
     ↔ truthy (fields !! "email") = false ∨ truthy (fields !! "password") = false).
Proof.
  unfold login.
  destruct (truthy (fields !! "email")) eqn:He; simpl;
    [|split; split; [discriminate | intros (? & _); discriminate | auto | auto]].
  destruct (truthy (fields !! "password")) eqn:Hp; simpl;
    [|split; split; [discriminate | intros (_ & ? & _); discriminate | auto | auto]].
  destruct (database_login jwt_encode bcrypt_compare JWT_SECRET findOne
              (fields !! "email") (fields !! "password") now) as [r|] eqn:Hdb.
  - apply database_login_Some in Hdb as (u & p & Hu & Hpw & Hcmp & ->). simpl.
    split; split; try discriminate.
    + intros _. repeat split. left. by exists u, p.
    + done.
    + intros [?|?]; discriminate.
  - apply database_login_None in Hdb.
    destruct (fallback_login_cases (fields !! "email") (fields !! "password") now)
      as [(t & Hin & Het & Hpt & ->) | [Hno ->]]; simpl.
    + split; split; try discriminate.
      * intros _. repeat split. right. by exists t.
      * done.
      * intros [?|?]; discriminate.
    + split; split; try discriminate.
      * intros (_ & _ & [?|?]); contradiction.
      * intros [?|?]; discriminate.
Qed.

(** X14: a login answered 200 carries a token made for exactly the
    identity shown in the answer (same id, username and role), signed with
    the configured key at the time of the request and expiring 24 hours
    (86400 seconds) later. *)
Theorem login_token_matches_answer (findOne : option json → result (option User))
    (fields : gmap string json) (now : Z) :
  auth_status (login jwt_encode bcrypt_compare JWT_SECRET findOne fields now) = 200 →
  ∃ message claims email,
    login jwt_encode bcrypt_compare JWT_SECRET findOne fields now
    = AuthJson 200
        (LoginBody message
           (jwt_encode {| jwt_payload := claims; iat := now; jwt_exp := now + 86400;
                          key := JWT_SECRET |})
           {| view_id := user_id claims; view_username := username claims;
              view_email := email; view_role := role claims |}).
Proof.
  unfold login. destruct (_ || _); [discriminate|].
  destruct (database_login jwt_encode bcrypt_compare JWT_SECRET findOne
              (fields !! "email") (fields !! "password") now) as [r|] eqn:Hdb.
  - apply database_login_Some in Hdb as (u & p & _ & _ & _ & ->). intros _.
    by eexists _, _, _.
  - destruct (fallback_login_cases (fields !! "email") (fields !! "password") now)
      as [(t & _ & _ & _ & ->) | [_ ->]]; [|discriminate].
    intros _. by eexists _, _, _.
Qed.

(** X15: each of the three hard-coded accounts logs in whatever the
    database holds or answers: the request is answered 200, and unless the
    database itself has a matching user the answer is the test user's
    session, whose id is the account's email. *)
Theorem test_credentials_always_login (findOne : option json → result (option User))
    (fields : gmap string json) (now : Z) (t : test_user) :
  In t testUsers →
  fields !! "email" = Some (JStr (tu_email t)) →
  fields !! "password" = Some (JStr (tu_password t)) →
  auth_status (login jwt_encode bcrypt_compare JWT_SECRET findOne fields now) = 200
  ∧ (¬ database_match findOne (fields !! "email") (fields !! "password") →
     login jwt_encode bcrypt_compare JWT_SECRET findOne fields now
     = session "Login successful (test user)"
         {| user_id := tu_email t; username := tu_username t; role := tu_role t |}
         (tu_email t) now).
Proof.
  intros Hin He Hp.
  assert (Htruthy : truthy (fields !! "email") = true ∧ truthy (fields !! "password") = true).
  { rewrite He, Hp. simpl in Hin.
    destruct Hin as [<-|[<-|[<-|[]]]]; by vm_compute. }
  destruct Htruthy as [Hte Htp].
  assert (Hfall : fallback_login jwt_encode JWT_SECRET (fields !! "email")
                    (fields !! "password") now
                  = session "Login successful (test user)"
                      {| user_id := tu_email t; username := tu_username t;
                         role := tu_role t |} (tu_email t) now).
  { rewrite He, Hp. simpl in Hin.
    destruct Hin as [<-|[<-|[<-|[]]]]; reflexivity. }
  unfold login. rewrite Hte, Htp. simpl.
  destruct (database_login jwt_encode bcrypt_compare JWT_SECRET findOne
              (fields !! "email") (fields !! "password") now) as [r|] eqn:Hdb.
  - apply database_login_Some in Hdb as (u & p & Hu & Hpw & Hcmp & ->).
    split; [done|]. intros Hno. exfalso. apply Hno. by exists u, p.
  - rewrite Hfall. by split.
Qed.

End LoginFacts.

Lemma login_token_matches_answer_witness :
  auth_status (login sample_jwt_encode sample_bcrypt_compare "your-secret-key"
                 sample_findOne (credentials "test@example.com" "hunter2") 1000) = 200
  ∧ ∃ message claims email,
      login sample_jwt_encode sample_bcrypt_compare "your-secret-key"
        sample_findOne (credentials "test@example.com" "hunter2") 1000
      = AuthJson 200
          (LoginBody message
             (sample_jwt_encode {| jwt_payload := claims; iat := 1000;
                                   jwt_exp := 1000 + 86400; key := "your-secret-key" |})
             {| view_id := user_id claims; view_username := username claims;
                view_email := email; view_role := role claims |}).
Proof.
  assert (H200 : auth_status (login sample_jwt_encode sample_bcrypt_compare
                   "your-secret-key" sample_findOne
                   (credentials "test@example.com" "hunter2") 1000) = 200)
    by (vm_compute; reflexivity).
  split; [exact H200|].
  exact (login_token_matches_answer sample_jwt_encode sample_bcrypt_compare
           "your-secret-key" sample_findOne
           (credentials "test@example.com" "hunter2") 1000 H200).
Defined.

Lemma test_credentials_always_login_witness :
  In {| tu_email := "admin@example.com"; tu_password := "password123";
        tu_username := "admin"; tu_role := "admin" |} testUsers
  ∧ credentials "admin@example.com" "password123" !! "email"
    = Some (JStr "admin@example.com")
  ∧ credentials "admin@example.com" "password123" !! "password"
    = Some (JStr "password123")
  ∧ auth_status (login sample_jwt_encode sample_bcrypt_compare "your-secret-key"
                   sample_findOne (credentials "admin@example.com" "password123") 1000)
    = 200.
Proof.
  assert (Hin : In {| tu_email := "admin@example.com"; tu_password := "password123";
                      tu_username := "admin"; tu_role := "admin" |} testUsers)
    by (left; reflexivity).
  assert (He : credentials "admin@example.com" "password123" !! "email"
               = Some (JStr "admin@example.com")) by (vm_compute; reflexivity).
  assert (Hp : credentials "admin@example.com" "password123" !! "password"
               = Some (JStr "password123")) by (vm_compute; reflexivity).
  split; [exact Hin|]. split; [exact He|]. split; [exact Hp|].
  exact (proj1 (test_credentials_always_login sample_jwt_encode sample_bcrypt_compare
                  "your-secret-key" sample_findOne _ 1000 _ Hin He Hp)).
Defined.

(** ** The header of [/me] *)

Lemma split_space_word (w rest : string) :
  no_space w = true → split_space (w ++ " " ++ rest) = w :: split_space rest.
Proof.
  induction w as [|c w IH]; simpl; [done|].
  unfold no_space. simpl. intros Hw. apply andb_true_iff in Hw as [Hc Hw].
  apply negb_true_iff in Hc. rewrite Hc. by rewrite (IH Hw).
Qed.

Lemma split_space_one (w : string) :
  no_space w = true → split_space w = [w].
Proof.
  induction w as [|c w IH]; simpl; [done|].
  unfold no_space. simpl. intros Hw. apply andb_true_iff in Hw as [Hc Hw].
  apply negb_true_iff in Hc. rewrite Hc. by rewrite (IH Hw).
Qed.

Lemma append_space_nonempty (w rest : string) : (w ++ " " ++ rest) ≠ "".
Proof. destruct w; discriminate. Qed.

Lemma header_token_second (scheme tok : string) :
  no_space scheme = true → no_space tok = true →
  header_token (Some (scheme ++ " " ++ tok)) = Some tok.
Proof.
  intros Hs Ht. unfold header_token.
  pose proof (append_space_nonempty scheme tok) as Hne.
  apply eqb_false_iff in Hne. rewrite Hne.
  by rewrite (split_space_word scheme tok Hs), (split_space_one tok Ht).
Qed.

Lemma header_token_bearer (tok : string) :
  no_space tok = true → header_token (Some ("Bearer " ++ tok)) = Some tok.
Proof. intros Ht. exact (header_token_second "Bearer" tok eq_refl Ht). Qed.

Section MeFacts.

Variable jwt_decode : string → option jwt.
Variable JWT_SECRET : string.

(** X16: [/me] takes the second word of the Authorization header for the
    token and does not examine the first: any scheme word is answered like
    'Bearer'. A request with no header, or a header of one word, is
    answered 401 'No token provided' before any token or database is
    consulted. *)
Theorem me_reads_second_word (scheme tok : string)
    (findUser : string → result (option User)) (now : Z) :
  no_space scheme = true → no_space tok = true →
  me jwt_decode JWT_SECRET (Some (scheme ++ " " ++ tok)) findUser now
  = me jwt_decode JWT_SECRET (Some ("Bearer " ++ tok)) findUser now
  ∧ me jwt_decode JWT_SECRET (Some scheme) findUser now
    = AuthJson 401 (AuthError "No token provided")
  ∧ me jwt_decode JWT_SECRET None findUser now
    = AuthJson 401 (AuthError "No token provided").
Proof.
  intros Hs Ht. unfold me.
  rewrite (header_token_second scheme tok Hs Ht).
  rewrite (header_token_bearer tok Ht).
  split; [done|]. split; [|done].
  unfold header_token. destruct (String.eqb_spec scheme "") as [->|_]; [done|].
  by rewrite (split_space_one scheme Hs).
Qed.

Definition view_of (u : User) : user_view :=
  {| view_id := User_id u;
     view_username := User_username u;
     view_email := User_email u;
     view_role := User_role u |}.

(** X17: for a header 'Bearer <token>', [/me] answers 403 'Invalid token'
    exactly when the token cannot be read, was signed with another key or
    has expired, and 200 otherwise. A valid token is answered with the
    database's user of that id when there is one, and with the content of
    the token itself when the database has none or fails. *)
Theorem me_answers (tok : string) (findUser : string → result (option User)) (now : Z) :
  no_space tok = true → tok ≠ "" →
  (me jwt_decode JWT_SECRET (Some ("Bearer " ++ tok)) findUser now
   = AuthJson 403 (AuthError "Invalid token")
   ∧ (jwt_decode tok = None
      ∨ ∃ t, jwt_decode tok = Some t ∧ (key t ≠ JWT_SECRET ∨ (jwt_exp t <= now)%Z)))
  ∨ (∃ t, jwt_decode tok = Some t ∧ key t = JWT_SECRET ∧ (now < jwt_exp t)%Z
          ∧ me jwt_decode JWT_SECRET (Some ("Bearer " ++ tok)) findUser now
            = match findUser (user_id (jwt_payload t)) with
              | Ok (Some u) => AuthJson 200 (MeBody (view_of u))
              | _ => AuthJson 200 (DecodedBody t)
              end).
Proof.
  intros Ht Hne. unfold me.
  rewrite (header_token_bearer tok Ht).
  apply eqb_false_iff in Hne. rewrite Hne. unfold jwt_verify.
  destruct (jwt_decode tok) as [t|]; [|left; auto].
  destruct (String.eqb_spec (key t) JWT_SECRET) as [Hkey|Hkey]; simpl;
    [|left; split; [done|]; right; exists t; auto].
  destruct (Z.ltb_spec now (jwt_exp t)) as [Hexp|Hexp].
  - right. exists t. repeat split; try done.
  - left. split; [done|]. right. exists t. auto.
Qed.

End MeFacts.

Lemma me_reads_second_word_witness :
  no_space "Basic" = true ∧ no_space "session.designer" = true
  ∧ me sample_jwt_decode "your-secret-key" (Some "Basic session.designer")
      (λ _, Ok None) 2000
    = me sample_jwt_decode "your-secret-key" (Some "Bearer session.designer")
        (λ _, Ok None) 2000.
Proof.
  split; [reflexivity|]. split; [reflexivity|].
  exact (proj1 (me_reads_second_word sample_jwt_decode "your-secret-key"
                  "Basic" "session.designer" (λ _, Ok None) 2000 eq_refl eq_refl)).
Defined.

Lemma me_answers_witness :
  no_space "session.designer" = true ∧ "session.designer" ≠ ""
  ∧ me sample_jwt_decode "your-secret-key" (Some "Bearer session.designer")
      (λ _, Ok None) 90000
    = AuthJson 403 (AuthError "Invalid token").
Proof.
  assert (Hne : "session.designer" ≠ "") by discriminate.
  split; [reflexivity|]. split; [exact Hne|].
  destruct (me_answers sample_jwt_decode "your-secret-key" "session.designer"
              (λ _, Ok None) 90000 eq_refl Hne) as [[H403 _]|(t & Hdec & _ & Hexp & _)].
  - exact H403.
  - injection Hdec as <-. simpl in Hexp. lia.
Defined.

(** ** From login to [/me] *)

Section SessionFacts.

Variable jwt_encode : jwt → string.
Variable jwt_decode : string → option jwt.
Variable bcrypt_compare : string → string → bool.
Variable JWT_SECRET : string.

Lemma me_valid_token (t : jwt) (findUser : string → result (option User)) (now : Z) :
  jwt_decode (jwt_encode t) = Some t → key t = JWT_SECRET →
  no_space (jwt_encode t) = true → jwt_encode t ≠ "" →
  me jwt_decode JWT_SECRET (Some ("Bearer " ++ jwt_encode t)) findUser now
  = if (now <? jwt_exp t)%Z
    then match findUser (user_id (jwt_payload t)) with
         | Ok (Some u) => AuthJson 200 (MeBody (view_of u))
         | _ => AuthJson 200 (DecodedBody t)
         end
    else AuthJson 403 (AuthError "Invalid token").
Proof.
  intros Hdec Hkey Hsp Hne. unfold me, jwt_verify.
  rewrite (header_token_bearer _ Hsp).
  apply eqb_false_iff in Hne. rewrite Hne, Hdec, Hkey, String.eqb_refl. simpl.
  by destruct (now <? jwt_exp t)%Z.
Qed.

(** X18: the token of a login answered 200 at time [now], sent as
    'Bearer <token>', is accepted by [/me] at any time before
    [now + 86400] and refused with 403 'Invalid token' from then on,
    provided the token library reads back what it signed and the token
    text is a non-empty word. While accepted, [/me] answers with the
    database's user of the token's id, or else with the content of the
    token. *)
Theorem login_then_me (findOne : option json → result (option User))
    (fields : gmap string json) (now : Z)
    (findUser : string → result (option User)) (later : Z) :
  auth_status (login jwt_encode bcrypt_compare JWT_SECRET findOne fields now) = 200 →
  ∃ message claims email,
    let t := {| jwt_payload := claims; iat := now; jwt_exp := now + 86400;
                key := JWT_SECRET |} in
    login jwt_encode bcrypt_compare JWT_SECRET findOne fields now
    = AuthJson 200
        (LoginBody message (jwt_encode t)
           {| view_id := user_id claims; view_username := username claims;
              view_email := email; view_role := role claims |})
    ∧ (jwt_decode (jwt_encode t) = Some t →
       no_space (jwt_encode t) = true → jwt_encode t ≠ "" →
       ((later < now + 86400)%Z →
        me jwt_decode JWT_SECRET (Some ("Bearer " ++ jwt_encode t)) findUser later
        = match findUser (user_id claims) with
          | Ok (Some u) => AuthJson 200 (MeBody (view_of u))
          | _ => AuthJson 200 (DecodedBody t)
          end)
       ∧ ((now + 86400 <= later)%Z →
          me jwt_decode JWT_SECRET (Some ("Bearer " ++ jwt_encode t)) findUser later
          = AuthJson 403 (AuthError "Invalid token"))).
Proof.
  intros H200.
  assert (Hissued : ∃ message claims email,
            login jwt_encode bcrypt_compare JWT_SECRET findOne fields now
            = session jwt_encode JWT_SECRET message claims email now).
  { unfold login in *. destruct (_ || _); [discriminate H200|].
    destruct (database_login jwt_encode bcrypt_compare JWT_SECRET findOne
                (fields !! "email") (fields !! "password") now) as [r|] eqn:Hdb.
    - apply database_login_Some in Hdb as (u & p & _ & _ & _ & ->). by eexists _, _, _.
    - destruct (fallback_login_cases jwt_encode JWT_SECRET
                  (fields !! "email") (fields !! "password") now)
        as [(t & _ & _ & _ & Hfall) | [_ Hfall]]; rewrite Hfall in *;
        [by eexists _, _, _ | discriminate H200]. }
  destruct Hissued as (message & claims & email & Hlogin).
  exists message, claims, email. simpl. split; [exact Hlogin|].
  intros Hdec Hsp Hne.
  rewrite (me_valid_token _ findUser later Hdec eq_refl Hsp Hne). simpl. split.
  - intros Hlt. by destruct (Z.ltb_spec later (now + 86400)); [|lia].
  - intros Hge. by destruct (Z.ltb_spec later (now + 86400)); [lia|].
Qed.

End SessionFacts.

Lemma login_then_me_witness :
  auth_status (login sample_jwt_encode sample_bcrypt_compare "your-secret-key"
                 sample_findOne (credentials "designer@example.com" "password") 1000) = 200
  ∧ me sample_jwt_decode "your-secret-key" (Some "Bearer session.designer")
      (λ _, Ok None) 2000
    = AuthJson 200 (DecodedBody designer_session).
Proof.
  assert (H200 : auth_status (login sample_jwt_encode sample_bcrypt_compare
                   "your-secret-key" sample_findOne
                   (credentials "designer@example.com" "password") 1000) = 200)
    by (vm_compute; reflexivity).
  split; [exact H200|].
  destruct (login_then_me sample_jwt_encode sample_jwt_decode sample_bcrypt_compare
              "your-secret-key" sample_findOne
              (credentials "designer@example.com" "password") 1000
              (λ _, Ok None) 2000 H200)
    as (message & [i u r] & email & Hlogin & Hme).
  vm_compute in Hlogin. injection Hlogin as _ Hu Hi _ _ Hr. subst i u r.
  exact (proj1 (Hme eq_refl eq_refl ltac:(discriminate)) ltac:(lia)).
Defined.

(** ** The hard-coded accounts and the component router *)

Lemma new_Component_object_id (user : Identity) (fields : gmap string json)
    (oid : string) (now : Z) (c : Component) :
  new_Component user fields oid now = Ok c → is_object_id (user_id user) = true.
Proof.
  unfold new_Component. intros H. inv_bind H.
  by eapply castObjectId_Ok.
Qed.

(** X19: the identity that the fallback login puts into its token has the
    account's email for id, which is no object id: with such an identity
    no create request is ever answered 201, and the collection is kept. *)
Theorem test_user_cannot_create (t : test_user) (fields : gmap string json)
    (oid : string) (now : Z) (db : store) :
  In t testUsers →
  http_status (post_handler {| user_id := tu_email t; username := tu_username t;
                               role := tu_role t |} fields oid now db).1 ≠ 201
  ∧ (post_handler {| user_id := tu_email t; username := tu_username t;
                     role := tu_role t |} fields oid now db).2 = db.
Proof.
  intros Hin.
  assert (Hid : is_object_id (tu_email t) = false).
  { simpl in Hin. destruct Hin as [<-|[<-|[<-|[]]]]; reflexivity. }
  destruct (post_handler_outcome {| user_id := tu_email t; username := tu_username t;
                                    role := tu_role t |} fields oid now db)
    as [|e|c Hnew _ _]; simpl; try done.
  apply new_Component_object_id in Hnew. simpl in Hnew. congruence.
Qed.

Lemma test_user_cannot_create_witness :
  In {| tu_email := "designer@example.com"; tu_password := "password";
        tu_username := "designer"; tu_role := "designer" |} testUsers
  ∧ (post_handler {| user_id := "designer@example.com"; username := "designer";
                     role := "designer" |} (new_button ∅) "64a1b2c3d4e5f678901200c2"
       2000 db1).2 = db1.
Proof.
  assert (Hin : In {| tu_email := "designer@example.com"; tu_password := "password";
                      tu_username := "designer"; tu_role := "designer" |} testUsers)
    by (right; left; reflexivity).
  split; [exact Hin|].
  exact (proj2 (test_user_cannot_create _ (new_button ∅) "64a1b2c3d4e5f678901200c2"
                  2000 db1 Hin)).
Defined.

(** ** The creator of a component is its owner *)

(** X20: a caller whose id is the canonical text of an object id owns the
    component they created: on that component every update of theirs
    passes the ownership check, so it is refused only when it sets the
    status 'approved' and they are no admin. *)
Theorem creator_is_owner (user : Identity) (fields updates : gmap string json)
    (oid : string) (now : Z) (db : store) :
  canonical_id (user_id user) = true →
  http_status (post_handler user fields oid now db).1 = 201 →
  ∃ c, (post_handler user fields oid now db).2 !! oid = Some c
       ∧ createdBy c = user_id user
       ∧ authorize_update user c updates = approval_check user updates.
Proof.
  intros Hcanon H201. apply andb_true_iff in Hcanon as [_ Hsame].
  apply String.eqb_eq in Hsame.
  destruct (post_handler_outcome user fields oid now db) as [|e|c Hnew _ _];
    [discriminate H201 | discriminate H201 |].
  apply new_Component_Ok in Hnew as (_ & Hby & _). rewrite Hsame in Hby.
  exists c. simpl. split; [apply lookup_insert_eq|]. split; [done|].
  by apply authorize_update_owner.
Qed.

Lemma creator_is_owner_witness :
  canonical_id (user_id U1) = true
  ∧ http_status (post_handler U1 (new_button ∅) "64a1b2c3d4e5f678901200c2" 2000 db1).1 = 201
  ∧ ∃ c, (post_handler U1 (new_button ∅) "64a1b2c3d4e5f678901200c2" 2000 db1).2
           !! "64a1b2c3d4e5f678901200c2" = Some c
         ∧ createdBy c = user_id U1.
Proof.
  assert (Hcanon : canonical_id (user_id U1) = true) by (vm_compute; reflexivity).
  assert (H201 : http_status (post_handler U1 (new_button ∅)
                                "64a1b2c3d4e5f678901200c2" 2000 db1).1 = 201)
    by (vm_compute; reflexivity).
  split; [exact Hcanon|]. split; [exact H201|].
  destruct (creator_is_owner U1 (new_button ∅) ∅ "64a1b2c3d4e5f678901200c2" 2000 db1
              Hcanon H201) as (c & Hc & Hby & _).
  exists c. split; [exact Hc | exact Hby].
Defined.
